(** * ask-cli: dialog controller, metric client and ask-states store

    A shallow embedding of three source files of the repository:

    - [lib/controllers/dialog-controller/index.ts] (class [DialogController]),
    - the metric client ([MetricAction], [MetricClient]),
    - [lib/model/resources-config/ask-states.ts] (class [AskStates]),
    - the entry script of [ask util].

    Collaborators whose code is not part of these files (the parent
    [SkillSimulationController], the simulation response parser, the
    string utilities, the parent [ConfigFile]) are taken as parameters. *)

From Stdlib Require Import ZArith String Ascii Bool Lia.
From Equations Require Import Equations.
From stdpp Require Import gmap strings list.

Local Open Scope Z_scope.
Local Open Scope string_scope.

(* ===================================================================== *)
(** * JavaScript primitives used by the sources *)
(* ===================================================================== *)

Module Js.

(** The white space that [String.prototype.trim] strips, restricted to
    the 7-bit code units: TAB, LF, VT, FF, CR and SPACE. *)
Definition isWhiteSpace (c : ascii) : bool :=
  let n := nat_of_ascii c in
  ((9 <=? n)%nat && (n <=? 13)%nat) || (n =? 32)%nat.

Fixpoint trimStart (s : string) : string :=
  match s with
  | EmptyString => EmptyString
  | String c s' => if isWhiteSpace c then trimStart s' else s
  end.

Fixpoint trimEnd (s : string) : string :=
  match s with
  | EmptyString => EmptyString
  | String c s' =>
      match trimEnd s' with
      | EmptyString => if isWhiteSpace c then EmptyString else String c EmptyString
      | t => String c t
      end
  end.

(** [s.trim()] *)
Definition trim (s : string) : string := trimEnd (trimStart s).

(** [s.split(sep)] for a one-character separator; never the empty list. *)
Fixpoint split (sep : ascii) (s : string) : list string :=
  match s with
  | EmptyString => [EmptyString]
  | String c s' =>
      if Ascii.eqb c sep then EmptyString :: split sep s'
      else match split sep s' with
           | [] => [String c EmptyString]
           | w :: ws => String c w :: ws
           end
  end.

Definition space : ascii := ascii_of_nat 32.
Definition dquote : string := String (ascii_of_nat 34) EmptyString.

Definition isEmptyString (s : string) : bool :=
  match s with EmptyString => true | _ => false end.

(** Values of type [any] that the sources compare or test. *)
Inductive value : Type :=
| VUndefined
| VNull
| VBool (b : bool)
| VNumber (z : Z)
| VString (s : string).

(** [v === false] *)
Definition strictEqFalse (v : value) : bool :=
  match v with VBool false => true | _ => false end.

(** What is passed in an [err] position: nothing ([undefined] or
    [null]), an [Error] object, or a bare message string. *)
Inductive error : Type :=
| ENone
| EError (message : string)
| EString (s : string).

(** [if (err)] *)
Definition truthy (e : error) : bool :=
  match e with
  | ENone => false
  | EError _ => true
  | EString s => negb (isEmptyString s)
  end.

(** [if (s)] for a value that is a string or absent. *)
Definition truthyString (s : option string) : bool :=
  match s with
  | None => false
  | Some s => negb (isEmptyString s)
  end.

(** A string or absent value passed in an [err] position. *)
Definition ofString (s : option string) : error :=
  match s with
  | None => ENone
  | Some s => EString s
  end.

(** [`${s}`] for a value that is a string or [undefined]. *)
Definition template (s : option string) : string :=
  match s with
  | None => "undefined"
  | Some s => s
  end.

End Js.

(* ===================================================================== *)
(** * lib/controllers/dialog-controller/index.ts *)
(* ===================================================================== *)

Module Dialog.

Definition RECORD_FORMAT : string :=
  "Please use the format: " +:+ Js.dquote +:+ ".record <fileName>" +:+ Js.dquote
  +:+ " or " +:+ Js.dquote +:+ ".record <fileName> --append-quit" +:+ Js.dquote.

(** ** Collaborators *)

(** An HTTP response [{statusCode, body}]; the shape of [body] belongs
    to the remote service. *)
Record Response (Body : Type) : Type :=
  { statusCode : Z; body : Body }.
Arguments statusCode {Body} _.
Arguments body {Body} _.

(** The two Ramda lens views the controller takes of a start response:
    [['body', 'id']] and [['body', 'error', 'message']]. *)
Class BodyLens (Body : Type) : Type :=
  { view_id : Body -> option string;
    view_error_message : Body -> option string }.

(** [@src/controllers/dialog-controller/simulation-response-parser]. *)
Class ResponseParser (Body : Type) : Type :=
  { shouldEndSession : Body -> bool;
    getCaption : Body -> list string;
    getErrorMessage : Body -> option string }.

(** [@src/utils/string-utils]; the argument may be [undefined]. *)
Class StringUtils : Type :=
  { isNonBlankString : option string -> bool }.

(** What the parent class hands to the callback it is given:
    [callback(err, response)]. *)
Record Reply (Body : Type) : Type :=
  { err : Js.error; response : option (Response Body) }.
Arguments Build_Reply {Body} _ _.
Arguments err {Body} _.
Arguments response {Body} _.

(** The parent [SkillSimulationController]: each method calls its
    callback once with a reply that depends on the remote service. *)
Record SkillSimulationController (Body : Type) : Type :=
  { super_startSkillSimulation : string -> bool -> Reply Body;
    super_getSkillSimulationResult : option string -> Reply Body }.
Arguments super_startSkillSimulation {Body} _ _ _.
Arguments super_getSkillSimulationResult {Body} _ _.

(** [interface IDialogController]: the part of the configuration that
    the constructor and [createReplayFile] read. *)
Record IDialogController : Type :=
  { cfg_skillId : string; cfg_locale : string; cfg_newSession : Js.value }.

(** ** State *)

Record DialogController : Type :=
  { _skillId : string;
    _locale : string;
    newSession : bool;
    utteranceCache : list string }.

(** Content of a replay file. *)
Record ReplayFile : Type :=
  { skillId : string; locale : string; type : string; userInput : list string }.

(** Files by path, and the paths at which a write fails. *)
Record FileSystem : Type :=
  { files : gmap string ReplayFile; unwritable : gset string }.

Inductive Exception : Type :=
| TypeError
| FsError (path : string).

(** What the controller does to the outside, in order. *)
Inductive Event : Type :=
| StartProgressSpinner (text : string)
| UpdateProgressSpinner (text : string)
| TerminateProgressSpinner
| StartSimulationRequest (utterance : string) (newSession : bool)
| GetSimulationResultRequest (simulationId : option string)
| MessengerError (e : Js.error)
| MessengerErrorView (message : option string)
| MessengerInfo (text : string)
| MessengerWarn (text : string)
| ReplCallback
| SetupCallback (e : Exception)
| SkillIOSave.

Record World : Type :=
  { this : DialogController; fs : FileSystem; trace : list Event }.

(** The calls to the remote service in a trace. *)
Definition isRequest (e : Event) : bool :=
  match e with
  | StartSimulationRequest _ _ | GetSimulationResultRequest _ => true
  | _ => false
  end.

Definition requests (t : list Event) : list Event := List.filter isRequest t.

(** ** A state and exception monad over [World] *)

Inductive Outcome (A : Type) : Type :=
| Returned (a : A)
| Thrown (e : Exception).
Arguments Returned {A} a.
Arguments Thrown {A} e.

Definition M (A : Type) : Type := World -> Outcome A * World.

Definition ret {A} (a : A) : M A := fun w => (Returned a, w).

Definition bind {A B} (m : M A) (k : A -> M B) : M B :=
  fun w =>
    match m w with
    | (Returned a, w') => k a w'
    | (Thrown e, w') => (Thrown e, w')
    end.

Definition throw {A} (e : Exception) : M A := fun w => (Thrown e, w).

(** [try { m } catch (e) { h e }] *)
Definition try_catch {A} (m : M A) (h : Exception -> M A) : M A :=
  fun w =>
    match m w with
    | (Returned a, w') => (Returned a, w')
    | (Thrown e, w') => h e w'
    end.

Declare Scope dialog_scope.
Delimit Scope dialog_scope with dialog.
Notation "x <- m ;; k" := (bind m (fun x => k))
  (at level 100, m at next level, right associativity) : dialog_scope.
Notation "m ;; k" := (bind m (fun _ => k))
  (at level 100, right associativity) : dialog_scope.
Local Open Scope dialog_scope.

Definition emit (e : Event) : M unit :=
  fun w => (Returned tt, {| this := this w; fs := fs w; trace := (trace w ++ [e])%list |}).

Definition get_this : M DialogController := fun w => (Returned (this w), w).

Definition set_this (c : DialogController) : M unit :=
  fun w => (Returned tt, {| this := c; fs := fs w; trace := trace w |}).

Definition get_fs : M FileSystem := fun w => (Returned (fs w), w).

Definition set_fs (f : FileSystem) : M unit :=
  fun w => (Returned tt, {| this := this w; fs := f; trace := trace w |}).

Definition when (b : bool) (m : M unit) : M unit := if b then m else ret tt.

Fixpoint forEach {A} (l : list A) (f : A -> M unit) : M unit :=
  match l with
  | [] => ret tt
  | x :: l' => f x ;; forEach l' f
  end.

Definition set_newSession (b : bool) : M unit :=
  c <- get_this ;;
  set_this {| _skillId := _skillId c; _locale := _locale c;
              newSession := b; utteranceCache := utteranceCache c |}.

Definition set_utteranceCache (l : list string) : M unit :=
  c <- get_this ;;
  set_this {| _skillId := _skillId c; _locale := _locale c;
              newSession := newSession c; utteranceCache := l |}.

(** [fs.outputJSONSync(filename, content)]: creates or overwrites. *)
Definition outputJSONSync (filename : string) (content : ReplayFile) : M unit :=
  f <- get_fs ;;
  if decide (filename ∈ unwritable f) then throw (FsError filename)
  else set_fs {| files := <[filename := content]> (files f);
                 unwritable := unwritable f |}.

(** ** The class *)

(** [constructor(configuration)] *)
Definition constructor (configuration : IDialogController) : DialogController :=
  {| _skillId := cfg_skillId configuration;
     _locale := cfg_locale configuration;
     newSession :=
       if Js.strictEqFalse (cfg_newSession configuration) then false else true;
     utteranceCache := [] |}.

Section Methods.

Context {Body : Type} `{BodyLens Body} `{ResponseParser Body} `{StringUtils}.
Variable super : SkillSimulationController Body.

(** [startSkillSimulation(utterance, newSession, callback)]; the
    result is what [callback] receives. *)
Definition startSkillSimulation (utterance : string) (newSession : bool)
  : M (Reply Body) :=
  emit (StartSimulationRequest utterance newSession) ;;
  let r := super_startSkillSimulation super utterance newSession in
  match response r with
  | Some _ => c <- get_this ;; set_utteranceCache (utteranceCache c ++ [utterance])%list
  | None => ret tt
  end ;;
  ret r.

(** [getSkillSimulationResult(simulationId, callback)]; the result is
    what [callback] receives. *)
Definition getSkillSimulationResult (simulationId : option string)
  : M (Reply Body) :=
  emit (GetSimulationResultRequest simulationId) ;;
  let r := super_getSkillSimulationResult super simulationId in
  if Js.truthy (err r) then ret (Build_Reply (err r) None)
  else
    match response r with
    | None => throw TypeError
    | Some resp =>
        let errorMsg := getErrorMessage (body resp) in
        if Js.truthyString errorMsg then ret (Build_Reply (Js.ofString errorMsg) None)
        else set_newSession false ;; ret (Build_Reply Js.ENone (Some resp))
    end.

(** [clearSession()] *)
Definition clearSession : M unit :=
  set_newSession true ;;
  set_utteranceCache [].

(** [evaluateUtterance(input, replView, replCallback)] *)
Definition evaluateUtterance (input : string) : M unit :=
  emit (StartProgressSpinner "Sending simulation request to Alexa...") ;;
  c <- get_this ;;
  start <- startSkillSimulation (Js.trim input) (newSession c) ;;
  if Js.truthy (err start) then
    emit TerminateProgressSpinner ;;
    emit (MessengerError (err start)) ;;
    emit ReplCallback
  else
    match response start with
    | None => throw TypeError
    | Some startResponse =>
        if (300 <=? statusCode startResponse)%Z then
          emit TerminateProgressSpinner ;;
          emit (MessengerErrorView (view_error_message (body startResponse))) ;;
          emit ReplCallback
        else
          emit (UpdateProgressSpinner "Waiting for the simulation response...") ;;
          let simulationId := view_id (body startResponse) in
          get <- getSkillSimulationResult simulationId ;;
          emit TerminateProgressSpinner ;;
          (if Js.truthy (err get) then
             emit (MessengerError (err get))
           else
             match response get with
             | None => throw TypeError
             | Some getResponse =>
                 when (shouldEndSession (body getResponse))
                      (emit (MessengerInfo "Session ended") ;; clearSession) ;;
                 forEach (getCaption (body getResponse))
                         (fun caption => emit (MessengerInfo ("Alexa > " +:+ caption)))
             end) ;;
          emit ReplCallback
    end.

(** The reply that the start call of a turn on [input] receives. *)
Definition startReply (input : string) (w : World) : Reply Body :=
  super_startSkillSimulation super (Js.trim input) (newSession (this w)).

(** The reply that polling receives after the start response
    [startResponse]. *)
Definition pollReply (startResponse : Response Body) : Reply Body :=
  super_getSkillSimulationResult super (view_id (body startResponse)).

(** [createReplayFile(filename, utterances)] *)
Definition createReplayFile (filename : string) (utterances : list string) : M unit :=
  if isNonBlankString (Some filename) then
    c <- get_this ;;
    let content :=
      {| skillId := _skillId c; locale := _locale c;
         type := "text"; userInput := utterances |} in
    outputJSONSync filename content
  else ret tt.

(** [_validateRecordCommandInput(recordArgsList, recordCommandFormat)];
    the returned object [{}] is [(None, false)]. *)
Definition _validateRecordCommandInput
    (recordArgsList : list string) (recordCommandFormat : string)
  : M (option string * bool) :=
  let filePath := recordArgsList !! 0%nat in
  let appendQuitArgument := recordArgsList !! 1%nat in
  if isNonBlankString appendQuitArgument then
    if negb (bool_decide (appendQuitArgument = Some "--append-quit")) then
      emit (MessengerWarn ("Unable to validate arguments: " +:+ Js.dquote
                           +:+ Js.template appendQuitArgument +:+ Js.dquote
                           +:+ ". " +:+ recordCommandFormat)) ;;
      ret (None, false)
    else ret (filePath, true)
  else ret (filePath, false).

(** The handler that [setupSpecialCommands] registers for [.record]. *)
Definition recordCommand (recordArgs : string) : M unit :=
  let recordArgsList := Js.split Js.space (Js.trim recordArgs) in
  if negb (isNonBlankString (Some recordArgs)) || (2 <? length recordArgsList)%nat then
    emit (MessengerWarn ("Incorrect format. " +:+ RECORD_FORMAT))
  else
    v <- _validateRecordCommandInput recordArgsList RECORD_FORMAT ;;
    let '(filePath, shouldAppendQuit) := v in
    c <- get_this ;;
    let utteranceCacheCopy :=
      (utteranceCache c ++ (if shouldAppendQuit then [".quit"] else []))%list in
    match filePath with
    | Some filePath =>
        if negb (Js.isEmptyString filePath) then
          try_catch
            (createReplayFile filePath utteranceCacheCopy ;;
             emit (MessengerInfo
                     ("Created replay file at " +:+ filePath
                      +:+ (if shouldAppendQuit
                           then " (appended " +:+ Js.dquote +:+ ".quit" +:+ Js.dquote
                                +:+ " to list of utterances)."
                           else EmptyString))))
            (fun replayFileCreationError => emit (SetupCallback replayFileCreationError))
        else ret tt
    | None => ret tt
    end.

(** The handler that [setupSpecialCommands] registers for [.quit]. *)
Definition quitCommand : M unit := emit SkillIOSave.

End Methods.

End Dialog.

(* ===================================================================== *)
(** * lib/model/resources-config/ask-states.ts *)
(* ===================================================================== *)

Module AskStates.

Section Store.

(** The parsed content of a states file. *)
Variable Content : Type.

(** What the parent [ConfigFile] finds at a path when [read()] runs:
    the content, or nothing, in which case [read()] throws. *)
Variable disk : string -> option Content.

(** An [AskStates] object: the path stored by the parent constructor
    and the content loaded by [read()]. *)
Record AskStates : Type :=
  { _path : string; content : option Content }.

(** Objects are told apart by their reference, the position at which
    they were allocated. *)
Definition ref : Type := nat.

(** The objects allocated so far and the module variable [instance]. *)
Record Process : Type :=
  { heap : list AskStates; instance : option ref }.

Inductive Outcome : Type :=
| Returned (r : ref)
| Thrown.

(** [let instance = null] *)
Definition start : Process := {| heap := []; instance := None |}.

(** The test [instance && instance._path === filePath]: the stored
    reference when the test holds. *)
Definition instanceFor (p : Process) (filePath : string) : option ref :=
  match instance p with
  | None => None
  | Some i =>
      match heap p !! i with
      | None => None
      | Some o => if bool_decide (_path o = filePath) then Some i else None
      end
  end.

(** [new AskStates(filePath)] *)
Definition constructor (filePath : string) (p : Process) : Outcome * Process :=
  match instanceFor p filePath with
  | Some i => (Returned i, p)
  | None =>
      let this := length (heap p) in
      let allocated := (heap p ++ [{| _path := filePath; content := None |}])%list in
      match disk filePath with
      | None => (Thrown, {| heap := allocated; instance := instance p |})
      | Some c =>
          (Returned this,
           {| heap := <[this := {| _path := filePath; content := Some c |}]> allocated;
              instance := Some this |})
      end
  end.

(** [AskStates.getInstance()] *)
Definition getInstance (p : Process) : option ref := instance p.

(** [AskStates.dispose()] *)
Definition dispose (p : Process) : Process :=
  {| heap := heap p; instance := None |}.

(** A run of constructions, in order; the references returned by the
    ones that did not throw are collected. *)
Fixpoint constructAll (paths : list string) (p : Process) : list Outcome * Process :=
  match paths with
  | [] => ([], p)
  | filePath :: rest =>
      let '(o, p') := constructor filePath p in
      let '(os, p'') := constructAll rest p' in
      (o :: os, p'')
  end.

(** The stored reference, if any, points into the heap. *)
Definition stored_is_allocated (p : Process) : Prop :=
  forall i, instance p = Some i -> (i < length (heap p))%nat.

(** Some allocated object has this path. *)
Definition existsFor (p : Process) (filePath : string) : bool :=
  existsb (fun o => bool_decide (_path o = filePath)) (heap p).

End Store.

Arguments _path {Content} _.
Arguments content {Content} _.
Arguments heap {Content} _.
Arguments instance {Content} _.
Arguments start {Content}.
Arguments instanceFor {Content} _ _.
Arguments constructor {Content} _ _ _.
Arguments getInstance {Content} _.
Arguments dispose {Content} _.
Arguments constructAll {Content} _ _ _.
Arguments existsFor {Content} _ _.
Arguments stored_is_allocated {Content} _.

End AskStates.

(* ===================================================================== *)
(** * The metric client *)
(* ===================================================================== *)

Module Metrics.

Module MetricActionResult.
Definition SUCCESS : string := "Success".
Definition FAILURE : string := "Failure".
End MetricActionResult.

(** [class MetricAction]; dates are instants on the clock. *)
Record MetricAction : Type :=
  { endTime : option Z;
    failureMessage : string;
    name : string;
    result : option string;
    startTime : Z;
    type : string;
    id : string;
    _ended : bool }.

(** [new MetricAction(name, type)], given the date and the uuid drawn. *)
Definition newMetricAction (name type : string) (now : Z) (uuid : string) : MetricAction :=
  {| endTime := None; failureMessage := EmptyString; name := name; result := None;
     startTime := now; type := type; id := uuid; _ended := false |}.

(** [action.end(error)], given the date read when the action is open. *)
Definition end_ (error : Js.error) (now : Z) (a : MetricAction) : MetricAction :=
  if _ended a then a
  else
    let errorMessage : option string :=
      match error with
      | Js.EError message => Some message
      | Js.EString s => Some s
      | Js.ENone => None
      end in
    {| endTime := Some now;
       failureMessage :=
         if Js.truthyString errorMessage then default EmptyString errorMessage
         else EmptyString;
       name := name a;
       result :=
         Some (if Js.truthyString errorMessage then MetricActionResult.FAILURE
               else MetricActionResult.SUCCESS);
       startTime := startTime a;
       type := type a;
       id := id a;
       _ended := true |}.

(** [this.data] *)
Record MetricData : Type :=
  { version : string;
    machineId : option string;
    timeStarted : Z;
    newUser : bool;
    timeUploaded : option Z;
    clientId : string;
    actions : list MetricAction }.

(** [class MetricClient] *)
Record MetricClient : Type :=
  { serverUrl : string;
    postRetries : Z;
    enabled : bool;
    data : MetricData }.

(** A POST that was issued: the url and the serialised client. *)
Record Post : Type :=
  { url : string; payload : MetricData }.

(** The client, the number of dates read so far and the POSTs issued
    so far, oldest first. *)
Record State : Type :=
  { client : MetricClient; dates : nat; posts : list Post }.

Record SendResult : Type := { success : bool }.

(** Settlement of a promise. *)
Inductive settled (A : Type) : Type :=
| Resolved (a : A)
| Rejected (err : string).
Arguments Resolved {A} a.
Arguments Rejected {A} err.

(** A promise-returning computation over a state. *)
Definition Promise (St A : Type) : Type := St -> settled A * St.

(** [p.then(f)] *)
Definition then_ {St A B} (p : Promise St A) (f : A -> St -> B * St) : Promise St B :=
  fun s =>
    match p s with
    | (Resolved a, s') => let '(b, s'') := f a s' in (Resolved b, s'')
    | (Rejected e, s') => (Rejected e, s')
    end.

(** [p.catch(g)] *)
Definition catch_ {St A} (p : Promise St A) (g : string -> St -> A * St) : Promise St A :=
  fun s =>
    match p s with
    | (Resolved a, s') => (Resolved a, s')
    | (Rejected e, s') => let '(a, s'') := g e s' in (Resolved a, s'')
    end.

(** [_retry(retries, fn)] *)
Equations? _retry {St A} (retries : Z) (fn : Promise St A) (s : St)
  : settled A * St by wf (Z.to_nat retries) lt :=
  _retry retries fn s with fn s => {
    | (Resolved a, s') := (Resolved a, s');
    | (Rejected err, s') with Z_lt_dec 1 retries => {
        | left _ := _retry (retries - 1) fn s';
        | right _ := (Rejected err, s') } }.
Proof. lia. Qed.

Definition set_data (d : MetricData) (s : State) : State :=
  {| client := {| serverUrl := serverUrl (client s);
                  postRetries := postRetries (client s);
                  enabled := enabled (client s);
                  data := d |};
     dates := dates s; posts := posts s |}.

Definition set_actions (l : list MetricAction) (s : State) : State :=
  let d := data (client s) in
  set_data {| version := version d; machineId := machineId d;
              timeStarted := timeStarted d; newUser := newUser d;
              timeUploaded := timeUploaded d; clientId := clientId d;
              actions := l |} s.

Definition set_timeUploaded (t : option Z) (s : State) : State :=
  let d := data (client s) in
  set_data {| version := version d; machineId := machineId d;
              timeStarted := timeStarted d; newUser := newUser d;
              timeUploaded := t; clientId := clientId d;
              actions := actions d |} s.

Section Client.

(** The k-th [new Date()] of the process. *)
Variable clock : nat -> Z.

(** How the k-th POST of the process settles. *)
Variable http : nat -> Post -> settled unit.

(** [new Date()] *)
Definition newDate (s : State) : Z * State :=
  (clock (dates s), {| client := client s; dates := S (dates s); posts := posts s |}).

(** [new MetricClient()], given what [_isEnabled()], [_getMachineId()],
    the package file and the endpoint constant yield. *)
Definition constructor (endpoint : string) (isEnabled : bool)
    (getMachineId : option string) (pckVersion pckName : string) (dates0 : nat)
  : State :=
  {| client := {| serverUrl := endpoint;
                  postRetries := 3;
                  enabled := isEnabled;
                  data := {| version := pckVersion; machineId := getMachineId;
                             timeStarted := clock dates0; newUser := false;
                             timeUploaded := None; clientId := pckName;
                             actions := [] |} |};
     dates := S dates0;
     posts := [] |}.

(** [startAction(name, type)], given the uuid drawn; the result is the
    action as created. *)
Definition startAction (name type uuid : string) (s : State) : MetricAction * State :=
  let '(now, s1) := newDate s in
  let action := newMetricAction name type now uuid in
  (action, set_actions (actions (data (client s1)) ++ [action])%list s1).

(** [this.data.actions.forEach(action => action.end(error))]: an
    action that is still open reads the date. *)
Fixpoint endAll (error : Js.error) (l : list MetricAction) (s : State)
  : list MetricAction * State :=
  match l with
  | [] => ([], s)
  | a :: l' =>
      let '(a', s1) :=
        if _ended a then (a, s)
        else let '(now, s1) := newDate s in (end_ error now a, s1) in
      let '(l'', s2) := endAll error l' s1 in
      (a' :: l'', s2)
  end.

(** [() => this.httpClient.post(this.serverUrl, payload)] *)
Definition postPromise (serverUrl : string) (payload : MetricData) : Promise State unit :=
  fun s =>
    let p := {| url := serverUrl; payload := payload |} in
    (http (length (posts s)) p,
     {| client := client s; dates := dates s; posts := (posts s ++ [p])%list |}).

(** What a run of [_retry] over the POST of [p] from [s] does when it
    ends in [r]: a number of attempts, all failed but possibly the
    last. *)
Definition retried (retries : Z) (p : Post) (s : State) (r : settled unit * State)
  : Prop :=
  exists n : nat,
    (1 <= n)%nat /\ Z.of_nat n <= Z.max 1 retries /\
    r.2 = {| client := client s; dates := dates s;
             posts := (posts s ++ replicate n p)%list |} /\
    (forall k, (k < n - 1)%nat ->
               exists e, http (length (posts s) + k) p = Rejected e) /\
    match r.1 with
    | Resolved _ => http (length (posts s) + (n - 1)) p = Resolved tt
    | Rejected e =>
        http (length (posts s) + (n - 1)) p = Rejected e /\
        Z.of_nat n = Z.max 1 retries
    end.

(** [_upload()] *)
Definition _upload : Promise State unit :=
  fun s =>
    let '(now, s1) := newDate s in
    let s2 := set_timeUploaded (Some now) s1 in
    let payload := data (client s2) in
    _retry (postRetries (client s2)) (postPromise (serverUrl (client s2)) payload) s2.

(** [sendData(error)] *)
Definition sendData (error : Js.error) : Promise State SendResult :=
  fun s =>
    if negb (enabled (client s)) then
      (Resolved {| success := true |}, set_actions [] s)
    else
      let '(ended, s1) := endAll error (actions (data (client s))) s in
      let s2 := set_actions ended s1 in
      catch_
        (then_ _upload (fun _ s' => ({| success := true |}, set_actions [] s')))
        (fun _ s' => ({| success := false |}, s'))
        s2.

End Client.

End Metrics.

(* ===================================================================== *)
(** * Strings: counting and trimmed strings *)
(* ===================================================================== *)

Module Text.

(** The number of times a character occurs in a string. *)
Fixpoint count (c : ascii) (s : string) : nat :=
  match s with
  | EmptyString => 0
  | String c' s' => (if Ascii.eqb c' c then 1 else 0) + count c s'
  end.


End Text.

(* ===================================================================== *)
(** * A dialog session: the calls made on one controller *)
(* ===================================================================== *)

Module Session.

Import Dialog.
Local Open Scope dialog_scope.

Section Commands.

Context {Body : Type} `{BodyLens Body} `{ResponseParser Body} `{StringUtils}.

(** What the REPL asks of the controller: a line to evaluate, together
    with the parent controller that answers this turn; [.record] with
    its arguments; [.quit]. *)
Inductive Command : Type :=
| Utterance (super : SkillSimulationController Body) (input : string)
| DotRecord (recordArgs : string)
| DotQuit.

Definition call (c : Command) : M unit :=
  match c with
  | Utterance super input => evaluateUtterance super input
  | DotRecord recordArgs => recordCommand recordArgs
  | DotQuit => quitCommand
  end.



End Commands.

(** A controller as [new DialogController(configuration)] leaves it, in
    front of the given files. *)
Definition fresh (configuration : IDialogController) (f : FileSystem) : World :=
  {| this := constructor configuration; fs := f; trace := [] |}.



Definition isMessengerInfo (e : Event) : bool :=
  match e with MessengerInfo _ => true | _ => false end.



(** The answer of the record command to arguments in a wrong format. *)
Definition incorrectFormat : Event :=
  MessengerWarn ("Incorrect format. " +:+ RECORD_FORMAT).


End Session.

(* ===================================================================== *)
(** * The metric client: what its constructor reads *)
(* ===================================================================== *)

Module MetricsSetup.

Import Metrics.

(** What [profileHelper], [process.env] and [AppConfig.configFileExists]
    answer. *)
Record Environment : Type :=
  { isEnvProfile : bool;
    ASK_SHARE_USAGE : option string;
    configFileExists : bool }.

(** The application configuration behind [getAppConfig()]: the two
    settings the client reads and the number of times [write()] ran. *)
Record AppConfig : Type :=
  { getShareUsage : bool;
    getMachineId : option string;
    written : nat }.

(** [appConfig.setMachineId(id)] *)
Definition setMachineId (id : string) (c : AppConfig) : AppConfig :=
  {| getShareUsage := getShareUsage c; getMachineId := Some id; written := written c |}.

(** [appConfig.write()] *)
Definition write (c : AppConfig) : AppConfig :=
  {| getShareUsage := getShareUsage c; getMachineId := getMachineId c;
     written := S (written c) |}.

(** [_isEnabled()] *)
Definition _isEnabled (env : Environment) (c : AppConfig) : bool :=
  if isEnvProfile env then true
  else if bool_decide (ASK_SHARE_USAGE env = Some "false") then false
  else if negb (configFileExists env) then false
  else getShareUsage c.

(** [_getMachineId()] on a client whose [enabled] field is [enabled],
    given the uuid that [uuid()] would draw. *)
Definition _getMachineId (enabled : bool) (env : Environment) (uuid : string)
    (c : AppConfig) : option string * AppConfig :=
  if negb enabled then (None, c)
  else if isEnvProfile env then (Some "all_environmental", c)
  else
    let c' :=
      if negb (Js.truthyString (getMachineId c)) then write (setMachineId uuid c)
      else c in
    (getMachineId c', c').

Section Client.

Variable clock : nat -> Z.
Variable http : nat -> Post -> settled unit.

(** [new MetricClient()] in an environment. *)
Definition newMetricClient (env : Environment) (endpoint pckVersion pckName uuid : string)
    (dates0 : nat) (c : AppConfig) : State * AppConfig :=
  let enabled := _isEnabled env c in
  let '(id, c') := _getMachineId enabled env uuid c in
  (constructor clock endpoint enabled id pckVersion pckName dates0, c').

(** [getData()] *)
Definition getData (s : State) : MetricData := data (client s).

(** What the rest of the program asks of the client. *)
Inductive Call : Type :=
| StartAction (name type uuid : string)
| SendData (error : Js.error).

Definition call (s : State) (c : Call) : State :=
  match c with
  | StartAction name type uuid => (startAction clock name type uuid s).2
  | SendData error => (sendData clock http error s).2
  end.

Definition calls (cs : list Call) (s : State) : State := fold_left call cs s.

(** The number of [sendData] among the calls. *)
Definition sends (cs : list Call) : nat :=
  length (List.filter (fun c => match c with SendData _ => true | _ => false end) cs).

End Client.

(** An action that [end] has closed. *)
Definition closed (a : MetricAction) : Prop :=
  _ended a = true /\ is_Some (endTime a) /\ is_Some (result a).

(** What holds of a client of the given endpoint and package through
    every call: its settings, that its ended actions are closed, and
    what its POSTs carried. *)
Definition sound (endpoint pckVersion pckName : string) (s : State) : Prop :=
  serverUrl (client s) = endpoint /\
  postRetries (client s) = 3 /\
  version (data (client s)) = pckVersion /\
  clientId (data (client s)) = pckName /\
  Forall (fun a => _ended a = true -> closed a) (actions (data (client s))) /\
  Forall (fun p =>
            url p = endpoint /\
            version (payload p) = pckVersion /\
            clientId (payload p) = pckName /\
            is_Some (timeUploaded (payload p)) /\
            Forall closed (actions (payload p)))
         (posts s).

End MetricsSetup.

(* ===================================================================== *)
(** * ask-states.ts: the settings and [withContent] *)
(* ===================================================================== *)

Module AskStatesAccess.

Import AskStates.

(** The key paths of the getters and setters. *)
Definition skillIdPath (profile : string) : list string :=
  ["profiles"; profile; "skillId"].

Definition skillMetaLastDeployHashPath (profile : string) : list string :=
  ["profiles"; profile; "skillMetadata"; "lastDeployHash"].

Definition codeLastDeployHashByRegionPath (profile region : string) : list string :=
  ["profiles"; profile; "code"; region; "lastDeployHash"].

Definition skillInfraDeployStatePath (profile infraType : string) : list string :=
  ["profiles"; profile; "skillInfrastructure"; infraType; "deployState"].

(** The settings that have a getter and a setter. *)
Inductive Key : Type :=
| SkillId (profile : string)
| SkillMetaLastDeployHash (profile : string)
| CodeLastDeployHashByRegion (profile region : string)
| SkillInfraDeployState (profile infraType : string).

Definition keyPath (k : Key) : list string :=
  match k with
  | SkillId profile => skillIdPath profile
  | SkillMetaLastDeployHash profile => skillMetaLastDeployHashPath profile
  | CodeLastDeployHashByRegion profile region => codeLastDeployHashByRegionPath profile region
  | SkillInfraDeployState profile infraType => skillInfraDeployStatePath profile infraType
  end.

(** [p] is the beginning of [q]. *)
Fixpoint isPrefix (p q : list string) : bool :=
  match p, q with
  | [], _ => true
  | _ :: _, [] => false
  | x :: p', y :: q' => bool_decide (x = y) && isPrefix p' q'
  end.

Section Access.

Variables Content Value : Type.

(** [getProperty] and [setProperty] of the parent [ConfigFile], on the
    content of an object. *)
Variable getProperty : list string -> Content -> Value.
Variable setProperty : list string -> Value -> Content -> Content.

(** [this.getProperty(path)] on the object at [this]. *)
Definition get (path : list string) (this : ref) (p : Process Content) : option Value :=
  match heap p !! this with
  | Some {| _path := _; content := Some c |} => Some (getProperty path c)
  | _ => None
  end.

(** [this.setProperty(path, value)] on the object at [this]. *)
Definition set (path : list string) (value : Value) (this : ref) (p : Process Content)
  : Process Content :=
  {| heap :=
       alter (fun o => {| _path := _path o;
                          content := setProperty path value <$> content o |})
             this (heap p);
     instance := instance p |}.

Definition getSkillId (profile : string) := get (skillIdPath profile).

Definition setSkillId (profile : string) (skillId : Value) :=
  set (skillIdPath profile) skillId.

Definition getSkillMetaLastDeployHash (profile : string) :=
  get (skillMetaLastDeployHashPath profile).

Definition setSkillMetaLastDeployHash (profile : string) (lastDeployHash : Value) :=
  set (skillMetaLastDeployHashPath profile) lastDeployHash.

Definition getCodeLastDeployHashByRegion (profile region : string) :=
  get (codeLastDeployHashByRegionPath profile region).

Definition setCodeLastDeployHashByRegion (profile region : string) (hash : Value) :=
  set (codeLastDeployHashByRegionPath profile region) hash.

Definition getSkillInfraDeployState (profile infraType : string) :=
  get (skillInfraDeployStatePath profile infraType).

Definition setSkillInfraDeployState (profile infraType : string) (deployState : Value) :=
  set (skillInfraDeployStatePath profile infraType) deployState.

(** The laws of a keyed document: a value set at a path is read back at
    that path, and a path that neither begins nor continues it reads
    what it read before. *)
Definition lawful : Prop :=
  (forall path v c, getProperty path (setProperty path v c) = v) /\
  (forall path path' v c,
      isPrefix path path' = false -> isPrefix path' path = false ->
      getProperty path' (setProperty path v c) = getProperty path' c).

(** The constant [BASE]. *)
Variable BASE : Content.

(** What the parent's [withContent(filePath, content)] does to the
    files. *)
Variable superWithContent :
  string -> Content -> (string -> option Content) -> (string -> option Content).


End Access.

(** Every stored or returned object has been read. *)
Definition loaded {Content : Type} (p : Process Content) : Prop :=
  stored_is_allocated p /\
  forall i o, heap p !! i = Some o -> instance p = Some i -> is_Some (content o).

End AskStatesAccess.

(* ===================================================================== *)
(** * The entry script of [ask util] *)
(* ===================================================================== *)

Module UtilCommand.





End UtilCommand.

(* ===================================================================== *)
(** * Concrete collaborators *)
(* ===================================================================== *)

Module Fixture.

Import Dialog.

(** A simulation body reduced to what the lenses and the parser read. *)
Record SimBody : Type :=
  { sim_id : option string;
    sim_error_message : option string;
    sim_failure : option string;
    sim_shouldEndSession : bool;
    sim_captions : list string }.

#[export] Instance SimBody_lens : BodyLens SimBody :=
  {| view_id := sim_id; view_error_message := sim_error_message |}.

#[export] Instance SimBody_parser : ResponseParser SimBody :=
  {| shouldEndSession := sim_shouldEndSession;
     getCaption := sim_captions;
     getErrorMessage := sim_failure |}.

(** Modelled from the spec: [isNonBlankString] of the absent
    [string-utils] module, the "non-blank-string validity check": a
    string that is not empty once trimmed. *)
Definition isNonBlankString_spec (s : option string) : bool :=
  match s with
  | None => false
  | Some s => negb (Js.isEmptyString (Js.trim s))
  end.

#[export] Instance stringUtils : StringUtils :=
  {| isNonBlankString := isNonBlankString_spec |}.

Definition body0 : SimBody :=
  {| sim_id := None; sim_error_message := None; sim_failure := None;
     sim_shouldEndSession := false; sim_captions := [] |}.

(** A start response [{statusCode: 200, body: {id: "sim-1"}}]. *)
Definition started : Response SimBody :=
  {| statusCode := 200;
     body := {| sim_id := Some "sim-1"; sim_error_message := None; sim_failure := None;
                sim_shouldEndSession := false; sim_captions := [] |} |}.

(** A start response [{statusCode: 400, body: {error: {message}}}]. *)
Definition refused : Response SimBody :=
  {| statusCode := 400;
     body := {| sim_id := None; sim_error_message := Some "Bad request";
                sim_failure := None; sim_shouldEndSession := false;
                sim_captions := [] |} |}.

(** A terminal poll response with one caption. *)
Definition finished (ends : bool) : Response SimBody :=
  {| statusCode := 200;
     body := {| sim_id := Some "sim-1"; sim_error_message := None; sim_failure := None;
                sim_shouldEndSession := ends; sim_captions := ["Hi"] |} |}.

(** A service that accepts every utterance and answers it. *)
Definition accepting (ends : bool) : SkillSimulationController SimBody :=
  {| super_startSkillSimulation := fun _ _ => Build_Reply Js.ENone (Some started);
     super_getSkillSimulationResult := fun _ => Build_Reply Js.ENone (Some (finished ends)) |}.

(** A service that answers every start request with status 400. *)
Definition refusing : SkillSimulationController SimBody :=
  {| super_startSkillSimulation := fun _ _ => Build_Reply Js.ENone (Some refused);
     super_getSkillSimulationResult := fun _ => Build_Reply Js.ENone None |}.

(** A transport that fails before any response. *)
Definition unreachable : SkillSimulationController SimBody :=
  {| super_startSkillSimulation :=
       fun _ _ => Build_Reply (Js.EError "connect ECONNREFUSED") None;
     super_getSkillSimulationResult := fun _ => Build_Reply Js.ENone None |}.

Definition history0 : list string := ["open my skill"].

Definition controller0 (history : list string) (fresh : bool) : DialogController :=
  {| _skillId := "amzn1.ask.skill.1"; _locale := "en-US";
     newSession := fresh; utteranceCache := history |}.

Definition world0 (history : list string) (fresh : bool) : World :=
  {| this := controller0 history fresh;
     fs := {| files := ∅; unwritable := ∅ |};
     trace := [] |}.

(** Every states file exists and holds the same content. *)
Definition disk0 : string -> option unit := fun _ => Some tt.

Definition clock0 : nat -> Z := Z.of_nat.

(** POSTs fail until the attempt numbered [k]. *)
Definition failingUntil (k : nat) : nat -> Metrics.Post -> Metrics.settled unit :=
  fun n _ => if (n <? k)%nat then Metrics.Rejected "timeout" else Metrics.Resolved tt.

Definition action0 : Metrics.MetricAction :=
  Metrics.newMetricAction "deploy" "command" 0 "id-0".

(** A configuration with no [newSession]. *)
Definition configuration0 : IDialogController :=
  {| cfg_skillId := "amzn1.ask.skill.1"; cfg_locale := "en-US";
     cfg_newSession := Js.VUndefined |}.

Definition files0 : FileSystem := {| files := ∅; unwritable := ∅ |}.

(** A terminal poll response that reports a failed simulation. *)
Definition failed : Response SimBody :=
  {| statusCode := 200;
     body := {| sim_id := Some "sim-1"; sim_error_message := None;
                sim_failure := Some "Skill simulation failed";
                sim_shouldEndSession := false; sim_captions := [] |} |}.

(** A service that accepts every utterance and then reports a failure. *)
Definition failing : SkillSimulationController SimBody :=
  {| super_startSkillSimulation := fun _ _ => Build_Reply Js.ENone (Some started);
     super_getSkillSimulationResult := fun _ => Build_Reply Js.ENone (Some failed) |}.

(** A parent that calls back with neither an error nor a response. *)
Definition silent : SkillSimulationController SimBody :=
  {| super_startSkillSimulation := fun _ _ => Build_Reply Js.ENone None;
     super_getSkillSimulationResult := fun _ => Build_Reply Js.ENone None |}.

(** A user who opted out of sharing usage. *)
Definition optedOut : MetricsSetup.Environment :=
  {| MetricsSetup.isEnvProfile := false;
     MetricsSetup.ASK_SHARE_USAGE := Some "false";
     MetricsSetup.configFileExists := true |}.

(** A user with a configuration file and no opinion in the environment. *)
Definition configured : MetricsSetup.Environment :=
  {| MetricsSetup.isEnvProfile := false;
     MetricsSetup.ASK_SHARE_USAGE := None;
     MetricsSetup.configFileExists := true |}.

Definition appConfig0 : MetricsSetup.AppConfig :=
  {| MetricsSetup.getShareUsage := true;
     MetricsSetup.getMachineId := None;
     MetricsSetup.written := 0 |}.

(** A document as a map from key paths to strings. *)
Definition getProperty0 (path : list string) (c : gmap (list string) string) : option string :=
  c !! path.

Definition setProperty0 (path : list string) (v : option string)
    (c : gmap (list string) string) : gmap (list string) string :=
  match v with
  | Some s => <[path := s]> c
  | None => delete path c
  end.

(** Every states file exists and is empty. *)
Definition disk1 : string -> option (gmap (list string) string) := fun _ => Some ∅.

(** Only the file "a" exists. *)
Definition diskA : string -> option unit :=
  fun filePath => if bool_decide (filePath = "a") then Some tt else None.

(** A world in which the file "replay.json" cannot be written. *)
Definition readOnly : World :=
  {| this := controller0 history0 false;
     fs := {| files := ∅; unwritable := {["replay.json"]} |};
     trace := [] |}.

(** An environment profile, with usage sharing refused and no
    configuration file. *)
Definition environmentProfile : MetricsSetup.Environment :=
  {| MetricsSetup.isEnvProfile := true;
     MetricsSetup.ASK_SHARE_USAGE := Some "false";
     MetricsSetup.configFileExists := false |}.

(** A client with one open action. *)
Definition client0 : Metrics.State :=
  (Metrics.startAction clock0 "deploy" "command" "id-0"
     (Metrics.constructor clock0 "https://metrics" true None "2.0.0" "ask-cli" 0)).2.

End Fixture.

(* ===================================================================== *)
(** * Properties of the dialog controller *)
(* ===================================================================== *)

Section DialogProperties.

Import Dialog.
Local Open Scope dialog_scope.

Context {Body : Type} `{BodyLens Body} `{ResponseParser Body} `{StringUtils}.
Variable super : SkillSimulationController Body.

Lemma forEach_emit {A} (f : A -> Event) (l : list A) (w : World) :
  forEach l (fun x => emit (f x)) w =
  (Returned tt, {| this := this w; fs := fs w; trace := (trace w ++ map f l)%list |}).
Proof.
  revert w. induction l as [|x l IH]; intros w; cbn.
  - rewrite app_nil_r. destruct w; reflexivity.
  - unfold bind, emit at 1. cbn. rewrite IH. cbn.
    rewrite <- app_assoc. reflexivity.
Qed.

Lemma forEach_log {A} (f : A -> Event) (l : list A) (w : World) :
  forEach l (fun x w0 =>
               (Returned tt,
                {| this := this w0; fs := fs w0; trace := (trace w0 ++ [f x])%list |})) w =
  (Returned tt, {| this := this w; fs := fs w; trace := (trace w ++ map f l)%list |}).
Proof. exact (forEach_emit f l w). Qed.

(** The start call appends the utterance exactly when a response came. *)
Lemma startSkillSimulation_run (utterance : string) (ns : bool) (w : World) :
  startSkillSimulation super utterance ns w =
  (Returned (super_startSkillSimulation super utterance ns),
   {| this :=
        {| _skillId := _skillId (this w); _locale := _locale (this w);
           newSession := newSession (this w);
           utteranceCache :=
             match response (super_startSkillSimulation super utterance ns) with
             | Some _ => (utteranceCache (this w) ++ [utterance])%list
             | None => utteranceCache (this w)
             end |};
      fs := fs w;
      trace := (trace w ++ [StartSimulationRequest utterance ns])%list |}).
Proof.
  unfold startSkillSimulation, bind, emit, ret. cbn.
  destruct (response (super_startSkillSimulation super utterance ns)); cbn.
  - reflexivity.
  - destruct w as [[] ? ?]; reflexivity.
Qed.


(** A write at a non-blank, writable path replaces the file. *)
Lemma createReplayFile_run (filename : string) (utterances : list string) (w : World) :
  isNonBlankString (Some filename) = true ->
  filename ∉ unwritable (fs w) ->
  createReplayFile filename utterances w =
  (Returned tt,
   {| this := this w;
      fs := {| files :=
                 <[filename := {| skillId := _skillId (this w);
                                  locale := _locale (this w);
                                  type := "text";
                                  userInput := utterances |}]> (files (fs w));
               unwritable := unwritable (fs w) |};
      trace := trace w |}).
Proof.
  intros Hok Hw.
  unfold createReplayFile, outputJSONSync, bind, get_fs, get_this, set_fs, throw.
  rewrite Hok. cbn. rewrite decide_False by assumption. reflexivity.
Qed.

Ltac turn :=
  unfold evaluateUtterance, getSkillSimulationResult, clearSession, startReply, pollReply,
    set_newSession, set_utteranceCache, when in *;
  unfold bind, emit, get_this, set_this, ret, throw in *;
  rewrite ?startSkillSimulation_run in *; cbn in *.

Ltac branch t :=
  let E := fresh "E" in destruct t eqn:E; cbn; rewrite ?E; cbn.

(** C4. A turn whose terminal poll response signals the end of the
    session and carries no service-side error leaves the controller
    with [newSession = true] and an empty utterance history, whatever
    the state before the turn. *)
Theorem C4_session_reset (input : string) (w : World)
    (startResponse getResponse : Response Body) :
  Js.truthy (err (startReply super input w)) = false ->
  response (startReply super input w) = Some startResponse ->
  statusCode startResponse < 300 ->
  Js.truthy (err (pollReply super startResponse)) = false ->
  response (pollReply super startResponse) = Some getResponse ->
  Js.truthyString (getErrorMessage (body getResponse)) = false ->
  shouldEndSession (body getResponse) = true ->
  let w' := (evaluateUtterance super input w).2 in
  (evaluateUtterance super input w).1 = Returned tt /\
  newSession (this w') = true /\
  utteranceCache (this w') = [] /\
  length (utteranceCache (this w')) = 0%nat.
Proof.
  intros Herr Hresp Hcode Hperr Hpresp Hmsg Hend.
  turn. rewrite Herr, Hresp.
  destruct (Z.leb_spec 300 (statusCode startResponse)) as [Hle|_]; [lia|].
  rewrite Hperr, Hpresp, Hmsg. cbn. rewrite Hend. cbn.
  rewrite forEach_log. cbn. auto.
Qed.

(** C5. A turn whose terminal poll response has no service-side error
    and does not signal the end of the session leaves [newSession =
    false] and the history equal to the prior history followed by the
    new utterance. *)
Theorem C5_continuation (input : string) (w : World)
    (startResponse getResponse : Response Body) :
  Js.truthy (err (startReply super input w)) = false ->
  response (startReply super input w) = Some startResponse ->
  statusCode startResponse < 300 ->
  Js.truthy (err (pollReply super startResponse)) = false ->
  response (pollReply super startResponse) = Some getResponse ->
  Js.truthyString (getErrorMessage (body getResponse)) = false ->
  shouldEndSession (body getResponse) = false ->
  let w' := (evaluateUtterance super input w).2 in
  (evaluateUtterance super input w).1 = Returned tt /\
  newSession (this w') = false /\
  utteranceCache (this w') = (utteranceCache (this w) ++ [Js.trim input])%list.
Proof.
  intros Herr Hresp Hcode Hperr Hpresp Hmsg Hend.
  turn. rewrite Herr, Hresp.
  destruct (Z.leb_spec 300 (statusCode startResponse)) as [Hle|_]; [lia|].
  rewrite Hperr, Hpresp, Hmsg. cbn. rewrite Hend. cbn.
  rewrite forEach_log. cbn. auto.
Qed.

(** C3, amended. A turn whose start call returns a response with
    [statusCode >= 300] takes the error branch without polling, and
    the trimmed utterance has been appended to the history once: the
    history is one entry longer than before the turn. *)
Theorem C3_remote_error_status (input : string) (w : World)
    (startResponse : Response Body) :
  response (startReply super input w) = Some startResponse ->
  300 <= statusCode startResponse ->
  let w' := (evaluateUtterance super input w).2 in
  let report :=
    if Js.truthy (err (startReply super input w))
    then MessengerError (err (startReply super input w))
    else MessengerErrorView (view_error_message (body startResponse)) in
  let added :=
    [StartProgressSpinner "Sending simulation request to Alexa...";
     StartSimulationRequest (Js.trim input) (newSession (this w));
     TerminateProgressSpinner; report; ReplCallback] in
  (evaluateUtterance super input w).1 = Returned tt /\
  trace w' = (trace w ++ added)%list /\
  requests added = [StartSimulationRequest (Js.trim input) (newSession (this w))] /\
  utteranceCache (this w') = (utteranceCache (this w) ++ [Js.trim input])%list /\
  length (utteranceCache (this w')) = S (length (utteranceCache (this w))) /\
  newSession (this w') = newSession (this w).
Proof.
  intros Hresp Hcode.
  turn. rewrite Hresp.
  destruct (Js.truthy _) eqn:Herr; cbn.
  - rewrite <- !app_assoc, length_app. cbn. repeat split; auto; lia.
  - destruct (Z.leb_spec 300 (statusCode startResponse)) as [_|Hlt]; [|lia].
    cbn. rewrite <- !app_assoc, length_app. cbn. repeat split; auto; lia.
Qed.

(** C1, amended. For an input that is empty or whitespace-only after
    trimming, [evaluateUtterance] makes no local validation: it issues
    the start-simulation request with the empty utterance and the
    current [newSession] flag; the history is unchanged when the start
    call yields no response; when the start call fails, the error
    reported is the one of that call, and the empty utterance has been
    appended to the history if a response came with it. *)
Theorem C1_blank_input_is_sent (input : string) (w : World) :
  Js.trim input = EmptyString ->
  let w' := (evaluateUtterance super input w).2 in
  let ns := newSession (this w) in
  let start := super_startSkillSimulation super EmptyString ns in
  let spinner := StartProgressSpinner "Sending simulation request to Alexa..." in
  (exists rest,
      trace w' = (trace w ++ [spinner; StartSimulationRequest EmptyString ns] ++ rest)%list) /\
  (response start = None -> utteranceCache (this w') = utteranceCache (this w)) /\
  (Js.truthy (err start) = true ->
     trace w' = (trace w ++ [spinner; StartSimulationRequest EmptyString ns;
                             TerminateProgressSpinner; MessengerError (err start);
                             ReplCallback])%list /\
     (is_Some (response start) ->
        utteranceCache (this w') = (utteranceCache (this w) ++ [EmptyString])%list)).
Proof.
  intros Hblank. turn. rewrite Hblank.
  set (start := super_startSkillSimulation super EmptyString (newSession (this w))).
  split; [|split].
  - destruct (Js.truthy (err start)); cbn.
    + eexists. rewrite <- !app_assoc. cbn. reflexivity.
    + destruct (response start) as [r|]; cbn.
      * destruct (300 <=? statusCode r)%Z; cbn.
        { eexists. rewrite <- !app_assoc. cbn. reflexivity. }
        branch (Js.truthy (err (super_getSkillSimulationResult super (view_id (body r))))).
        { eexists. rewrite <- !app_assoc. cbn. reflexivity. }
        destruct (response (super_getSkillSimulationResult super _)) as [g|]; cbn.
        -- destruct (getErrorMessage (body g)) as [[|? ?]|]; cbn;
             try (destruct (shouldEndSession (body g)); cbn; rewrite forEach_log; cbn);
             eexists; rewrite <- !app_assoc; cbn; reflexivity.
        -- eexists. rewrite <- !app_assoc. cbn. reflexivity.
      * eexists. rewrite <- !app_assoc. cbn. reflexivity.
  - intros Hnone. rewrite Hnone.
    destruct (Js.truthy (err start)); reflexivity.
  - intros Herr. rewrite Herr. cbn. split.
    + rewrite <- !app_assoc. reflexivity.
    + intros [r Hr]. rewrite Hr. reflexivity.
Qed.

(** C2. For a non-empty trimmed utterance, the start call appends
    exactly one entry, the trimmed utterance, to the history if and
    only if it produced a response object, whatever its status code,
    and appends none when it produced no response; the rest of the
    turn appends nothing (it keeps the history, or clears it when the
    session ends). *)
Theorem C2_history_append (input : string) (w : World) :
  Js.trim input <> EmptyString ->
  let u := Js.trim input in
  let history := utteranceCache (this w) in
  let sent :=
    utteranceCache (this (startSkillSimulation super u (newSession (this w)) w).2) in
  let final := utteranceCache (this (evaluateUtterance super input w).2) in
  (is_Some (response (startReply super input w)) -> sent = (history ++ [u])%list) /\
  (response (startReply super input w) = None -> sent = history) /\
  (is_Some (response (startReply super input w)) <-> length sent = S (length history)) /\
  (response (startReply super input w) = None -> final = history) /\
  (is_Some (response (startReply super input w)) ->
     final = (history ++ [u])%list \/
     (final = [] /\
      exists startResponse getResponse,
        response (startReply super input w) = Some startResponse /\
        response (pollReply super startResponse) = Some getResponse /\
        shouldEndSession (body getResponse) = true)).
Proof.
  intros _. turn.
  set (start := super_startSkillSimulation super (Js.trim input) (newSession (this w))).
  repeat split.
  - intros [r Hr]. rewrite Hr. reflexivity.
  - intros Hnone. rewrite Hnone. reflexivity.
  - intros [r Hr]. rewrite Hr, length_app. cbn. lia.
  - destruct (response start); [eauto|]. intros Hlen. lia.
  - intros Hnone. rewrite Hnone. destruct (Js.truthy (err start)); reflexivity.
  - intros [r Hr]. rewrite Hr.
    destruct (Js.truthy (err start)); cbn; [left; reflexivity|].
    destruct (300 <=? statusCode r)%Z; cbn; [left; reflexivity|].
    branch (Js.truthy (err (super_getSkillSimulationResult super (view_id (body r)))));
      [left; reflexivity|].
    destruct (response (super_getSkillSimulationResult super _)) as [g|] eqn:Hg; cbn;
      [|left; reflexivity].
    destruct (getErrorMessage (body g)) as [[|? ?]|]; cbn;
      try (left; reflexivity);
      (destruct (shouldEndSession (body g)) eqn:Hend; cbn; rewrite forEach_log; cbn;
       [right; split; [reflexivity|]; exists r, g; auto | left; reflexivity]).
Qed.

(** C6, amended. After construction [newSession] is true unless the
    configuration's [newSession] is exactly [false], in which case it
    is false, and the history is empty; afterwards a turn sets it back
    from false to true only by the session reset, that is when the
    parsed poll response signals the end of the session. *)
Theorem C6_newSession_after_construction (configuration : IDialogController) :
  (cfg_newSession configuration <> Js.VBool false ->
     newSession (constructor configuration) = true) /\
  (cfg_newSession configuration = Js.VBool false ->
     newSession (constructor configuration) = false) /\
  utteranceCache (constructor configuration) = [] /\
  (forall (input : string) (w : World),
      newSession (this w) = false ->
      newSession (this (evaluateUtterance super input w).2) = true ->
      exists startResponse getResponse,
        response (startReply super input w) = Some startResponse /\
        response (pollReply super startResponse) = Some getResponse /\
        shouldEndSession (body getResponse) = true).
Proof.
  repeat split.
  - intros Hne. unfold constructor; cbn.
    destruct (cfg_newSession configuration) as [| |[|]| |]; cbn; congruence.
  - intros Heq. unfold constructor; cbn. rewrite Heq. reflexivity.
  - intros input w Hold. turn.
    set (start := super_startSkillSimulation super (Js.trim input) (newSession (this w))).
    destruct (Js.truthy (err start)); cbn; [congruence|].
    destruct (response start) as [r|]; cbn; [|congruence].
    destruct (300 <=? statusCode r)%Z; cbn; [congruence|].
    branch (Js.truthy (err (super_getSkillSimulationResult super (view_id (body r)))));
      [congruence|].
    destruct (response (super_getSkillSimulationResult super _)) as [g|] eqn:Hg; cbn;
      [|congruence].
    destruct (getErrorMessage (body g)) as [[|? ?]|]; cbn;
      try congruence;
      (destruct (shouldEndSession (body g)) eqn:Hend; cbn; rewrite forEach_log; cbn;
       [intros _; exists r, g; auto | congruence]).
Qed.

(** C7. [createReplayFile] does nothing when the file path is not a
    non-blank string; otherwise it writes the replay document
    [{skillId, locale, type: "text", userInput}] at the path, replacing
    what was there (a write that the file system refuses throws and
    leaves the files as they were); calling it twice with the same path and utterances
    is the same as calling it once; the written [userInput] has the
    length of the list given, which for the record command is the
    length of the history, plus one when [--append-quit] adds the
    trailing [.quit]. *)
Theorem C7_createReplayFile (filename : string) (utterances : list string)
    (recordArgs path : string) (w : World) :
  let document (input : list string) :=
    {| skillId := _skillId (this w); locale := _locale (this w);
       type := "text"; userInput := input |} in
  let history := utteranceCache (this w) in
  (isNonBlankString (Some filename) = false ->
     createReplayFile filename utterances w = (Returned tt, w)) /\
  (isNonBlankString (Some filename) = true ->
   filename ∉ unwritable (fs w) ->
     let w' := (createReplayFile filename utterances w).2 in
     (createReplayFile filename utterances w).1 = Returned tt /\
     files (fs w') = <[filename := document utterances]> (files (fs w)) /\
     files (fs w') !! filename = Some (document utterances) /\
     (forall other, other <> filename -> files (fs w') !! other = files (fs w) !! other) /\
     length (userInput (document utterances)) = length utterances /\
     this w' = this w) /\
  (isNonBlankString (Some filename) = true ->
   filename ∈ unwritable (fs w) ->
     createReplayFile filename utterances w = (Thrown (FsError filename), w)) /\
  (createReplayFile filename utterances ;; createReplayFile filename utterances) w =
    createReplayFile filename utterances w /\
  (isNonBlankString (Some recordArgs) = true ->
   isNonBlankString (Some path) = true ->
   path <> EmptyString ->
   path ∉ unwritable (fs w) ->
     (Js.split Js.space (Js.trim recordArgs) = [path] ->
      isNonBlankString None = false ->
        let w' := (recordCommand recordArgs w).2 in
        files (fs w') !! path = Some (document history) /\
        length (userInput (document history)) = length history /\
        this w' = this w) /\
     (Js.split Js.space (Js.trim recordArgs) = [path; "--append-quit"] ->
      isNonBlankString (Some "--append-quit") = true ->
        let w' := (recordCommand recordArgs w).2 in
        files (fs w') !! path = Some (document (history ++ [".quit"])%list) /\
        length (userInput (document (history ++ [".quit"])%list)) = S (length history) /\
        this w' = this w)).
Proof.
  cbn zeta. split; [|split; [|split; [|split]]].
  - intros Hblank. unfold createReplayFile. rewrite Hblank. reflexivity.
  - intros Hok Hw. rewrite createReplayFile_run by assumption. cbn.
    repeat split.
    + apply lookup_insert_eq.
    + intros other Hne. apply lookup_insert_ne. congruence.
  - intros Hok Hin.
    unfold createReplayFile, outputJSONSync, bind, get_fs, get_this, throw.
    rewrite Hok. cbn. rewrite decide_True by assumption. reflexivity.
  - unfold bind.
    destruct (isNonBlankString (Some filename)) eqn:Hok.
    + destruct (decide (filename ∈ unwritable (fs w))) as [Hin|Hout].
      * unfold createReplayFile, outputJSONSync, bind, get_fs, get_this, throw.
        rewrite Hok. cbn. rewrite decide_True by assumption. reflexivity.
      * rewrite createReplayFile_run by assumption.
        rewrite createReplayFile_run by assumption. cbn.
        rewrite insert_insert_eq. reflexivity.
    + unfold createReplayFile. rewrite Hok. reflexivity.
  - intros Hargs Hpath Hne Hw. split.
    + intros Hsplit Hundef. unfold recordCommand.
      rewrite Hargs, Hsplit. cbn.
      unfold _validateRecordCommandInput, bind, ret, get_this, try_catch. cbn.
      rewrite Hundef.
      destruct path as [|c p]; [congruence|]. cbn.
      rewrite app_nil_r.
      rewrite (createReplayFile_run (String c p) _ w Hpath Hw). cbn.
      rewrite lookup_insert_eq. auto.
    + intros Hsplit Hflag. unfold recordCommand.
      rewrite Hargs, Hsplit. cbn.
      unfold _validateRecordCommandInput, bind, ret, get_this, try_catch. cbn.
      rewrite Hflag, bool_decide_eq_true_2 by reflexivity. cbn.
      destruct path as [|c p]; [congruence|]. cbn.
      rewrite (createReplayFile_run (String c p) _ w Hpath Hw). cbn.
      rewrite lookup_insert_eq, length_app. cbn. repeat split; auto; lia.
Qed.

End DialogProperties.

(* ===================================================================== *)
(** * Properties of the ask-states store *)
(* ===================================================================== *)

Section AskStatesProperties.

Import AskStates.

Context {Content : Type}.
Variable disk : string -> option Content.

Lemma instanceFor_Some (p : Process Content) (filePath : string) (i : ref) :
  instanceFor p filePath = Some i <->
  instance p = Some i /\ exists o, heap p !! i = Some o /\ _path o = filePath.
Proof.
  unfold instanceFor. split.
  - destruct (instance p) as [j|]; [|discriminate].
    destruct (heap p !! j) as [o|] eqn:Ho; [|discriminate].
    case_bool_decide; [|discriminate].
    intros [= ->]. eauto.
  - intros (-> & o & -> & Hpath).
    rewrite bool_decide_eq_true_2 by assumption. reflexivity.
Qed.

Lemma constructor_stored (filePath : string) (p : Process Content) (i : ref) :
  instanceFor p filePath = Some i -> constructor disk filePath p = (Returned i, p).
Proof. intros Hfor. unfold constructor. rewrite Hfor. reflexivity. Qed.

Lemma constructor_allocated (filePath : string) (p : Process Content) :
  stored_is_allocated p -> stored_is_allocated (constructor disk filePath p).2.
Proof.
  intros Hp. unfold constructor.
  destruct (instanceFor p filePath); cbn; [exact Hp|].
  destruct (disk filePath); cbn; intros i Hi; cbn in *.
  - inversion Hi; subst. rewrite length_insert, length_app. cbn. lia.
  - rewrite length_app. cbn. specialize (Hp i Hi). lia.
Qed.

Lemma constructAll_allocated (paths : list string) (p : Process Content) :
  stored_is_allocated p -> stored_is_allocated (constructAll disk paths p).2.
Proof.
  revert p. induction paths as [|filePath rest IH]; intros p Hp; cbn; [exact Hp|].
  pose proof (constructor_allocated filePath p Hp) as Hq.
  destruct (constructor disk filePath p) as [o q]. cbn in Hq.
  specialize (IH q Hq).
  destruct (constructAll disk rest q) as [os q']. exact IH.
Qed.

(** C8, amended. The store keeps one process-wide instance, the one
    constructed last: constructing [AskStates(p)] while the stored
    instance has path [p] returns that instance and allocates nothing,
    so that constructing the same path twice in a row returns the same
    instance; after every sequence of constructions the stored
    instance is an allocated object; constructing with a path other
    than the stored one allocates a new object, which replaces the
    stored instance. *)
Theorem C8_stored_instance (filePath : string) (p : Process Content) :
  (forall i o,
      instance p = Some i -> heap p !! i = Some o -> _path o = filePath ->
      constructor disk filePath p = (Returned i, p)) /\
  (forall r p',
      constructor disk filePath p = (Returned r, p') ->
      getInstance p' = Some r /\ constructor disk filePath p' = (Returned r, p')) /\
  (forall paths i,
      instance (constructAll disk paths start).2 = Some i ->
      is_Some (heap (constructAll disk paths start).2 !! i)) /\
  (forall i o c,
      instance p = Some i -> heap p !! i = Some o -> _path o <> filePath ->
      disk filePath = Some c ->
      let p' := (constructor disk filePath p).2 in
      (constructor disk filePath p).1 = Returned (length (heap p)) /\
      instance p' = Some (length (heap p)) /\
      length (heap p') = S (length (heap p))).
Proof.
  split; [|split; [|split]].
  - intros i o Hi Ho Hpath. apply constructor_stored.
    apply instanceFor_Some. eauto.
  - intros r p' Hnew. unfold constructor in Hnew.
    destruct (instanceFor p filePath) as [i|] eqn:Hfor.
    + inversion Hnew; subst. split.
      * apply instanceFor_Some in Hfor. apply Hfor.
      * apply constructor_stored. exact Hfor.
    + destruct (disk filePath) as [c|]; inversion Hnew; subst; clear Hnew.
      split; [reflexivity|].
      apply constructor_stored, instanceFor_Some. cbn. split; [reflexivity|].
      exists {| _path := filePath; content := Some c |}. split; [|reflexivity].
      apply list_lookup_insert_eq. rewrite length_app. cbn. lia.
  - intros paths i Hi. apply lookup_lt_is_Some_2.
    apply (constructAll_allocated paths start); [|exact Hi].
    intros j Hj. discriminate.
  - intros i o c Hi Ho Hpath Hdisk. unfold constructor, instanceFor.
    rewrite Hi, Ho, bool_decide_eq_false_2, Hdisk by assumption. cbn.
    rewrite length_insert, length_app. cbn. repeat split; lia.
Qed.

End AskStatesProperties.

(* ===================================================================== *)
(** * Properties of the metric client *)
(* ===================================================================== *)

Section MetricsProperties.

Import Metrics.

Variable clock : nat -> Z.
Variable http : nat -> Post -> settled unit.

Lemma _retry_unfold {St A} (retries : Z) (fn : Promise St A) (s : St) :
  _retry retries fn s =
  match fn s with
  | (Resolved a, s') => (Resolved a, s')
  | (Rejected err, s') =>
      if decide (1 < retries) then _retry (retries - 1) fn s' else (Rejected err, s')
  end.
Proof.
  rewrite _retry_equation_1.
  destruct (fn s) as [[a|e] s']; simp _retry; [reflexivity|].
  destruct (Z_lt_dec 1 retries); simp _retry; case_decide; try reflexivity; lia.
Qed.

Lemma _retry_postPromise (retries : Z) (p : Post) (s : State) :
  retried http retries p s (_retry retries (postPromise http (url p) (payload p)) s).
Proof.
  remember (Z.to_nat retries) as m eqn:Hm.
  revert retries s Hm. induction m as [m IH] using lt_wf_ind. intros retries s Hm.
  rewrite _retry_unfold. unfold postPromise at 1.
  replace {| url := url p; payload := payload p |} with p by (destruct p; reflexivity).
  destruct (http (length (posts s)) p) as [[]|e] eqn:Hhttp.
  - exists 1%nat. cbn. rewrite Nat.add_0_r.
    repeat split; auto; try lia; intros; lia.
  - case_decide as Hlt.
    + destruct (IH (Z.to_nat (retries - 1)) ltac:(lia) (retries - 1)
                  {| client := client s; dates := dates s;
                     posts := (posts s ++ [p])%list |} eq_refl)
        as (n & Hn1 & Hn2 & Hs & Hrej & Hlast).
      cbn in *. rewrite length_app in *. cbn in *.
      exists (S n). repeat split; try lia.
      * rewrite Hs. cbn. rewrite <- app_assoc. reflexivity.
      * intros k Hk. destruct k as [|k].
        -- exists e. rewrite Nat.add_0_r. exact Hhttp.
        -- destruct (Hrej k ltac:(lia)) as [e' He']. exists e'.
           replace (length (posts s) + S k)%nat with (length (posts s) + 1 + k)%nat by lia.
           exact He'.
      * replace (length (posts s) + (S n - 1))%nat
          with (length (posts s) + 1 + (n - 1))%nat by lia.
        destruct (_retry _ _ _).1; [exact Hlast|].
        destruct Hlast as [? ?]. split; [assumption|lia].
    + exists 1%nat. cbn. rewrite Nat.add_0_r.
      repeat split; auto; try lia; intros; lia.
Qed.

Lemma endAll_posts (error : Js.error) (l : list MetricAction) (s : State) :
  posts (endAll clock error l s).2 = posts s /\
  client (endAll clock error l s).2 = client s.
Proof.
  revert s. induction l as [|a l IH]; intros s; cbn; [auto|].
  destruct (_ended a).
  - specialize (IH s). destruct (endAll clock error l s). exact IH.
  - specialize (IH {| client := client s; dates := S (dates s); posts := posts s |}).
    destruct (endAll clock error l _). exact IH.
Qed.

(** C9. The upload is retried up to 3 times and its failures are
    swallowed: [_retry] issues the POST at most 3 times, and
    [sendData] always resolves, never rejects: with [{success: true}]
    when the client is disabled (no POST at all) or when an attempt
    succeeds, with [{success: false}] when the three attempts fail. *)
Theorem C9_sendData_swallows_failures (error : Js.error) (s : State) :
  postRetries (client s) = 3 ->
  let r := sendData clock http error s in
  let before := length (posts s) in
  (exists b, r.1 = Resolved {| success := b |}) /\
  (enabled (client s) = false ->
     r.1 = Resolved {| success := true |} /\ posts r.2 = posts s) /\
  (enabled (client s) = true ->
     exists (n : nat) (p : Post),
       (1 <= n <= 3)%nat /\
       posts r.2 = (posts s ++ replicate n p)%list /\
       (forall k, (k < n - 1)%nat -> exists e, http (before + k) p = Rejected e) /\
       ((http (before + (n - 1)) p = Resolved tt /\
         r.1 = Resolved {| success := true |}) \/
        (n = 3%nat /\ (exists e, http (before + 2) p = Rejected e) /\
         r.1 = Resolved {| success := false |}))) /\
  (length (posts r.2) <= before + 3)%nat /\
  (forall (p : Post) (s0 : State),
      (length (posts (_retry 3 (postPromise http (url p) (payload p)) s0).2)
       <= length (posts s0) + 3)%nat).
Proof.
  intros Hretries. cbn zeta.
  assert (Hretry : forall (p : Post) (s0 : State),
             (length (posts (_retry 3 (postPromise http (url p) (payload p)) s0).2)
              <= length (posts s0) + 3)%nat).
  { intros p s0. destruct (_retry_postPromise 3 p s0) as (n & _ & Hn & Hs & _).
    rewrite Hs. cbn. rewrite length_app, length_replicate. lia. }
  assert (Hon : enabled (client s) = true ->
     exists (n : nat) (p : Post),
       (1 <= n <= 3)%nat /\
       posts (sendData clock http error s).2 = (posts s ++ replicate n p)%list /\
       (forall k, (k < n - 1)%nat ->
                  exists e, http (length (posts s) + k) p = Rejected e) /\
       ((http (length (posts s) + (n - 1)) p = Resolved tt /\
         (sendData clock http error s).1 = Resolved {| success := true |}) \/
        (n = 3%nat /\ (exists e, http (length (posts s) + 2) p = Rejected e) /\
         (sendData clock http error s).1 = Resolved {| success := false |}))).
  { intros Hen. unfold sendData. rewrite Hen. cbn.
    pose proof (endAll_posts error (actions (data (client s))) s) as [Hposts Hclient].
    destruct (endAll clock error (actions (data (client s))) s) as [ended s1].
    cbn in Hposts, Hclient.
    unfold catch_, then_, _upload. cbn.
    rewrite Hclient, Hretries.
    match goal with
    | |- context [_retry 3 (postPromise http ?u ?d) ?s0] =>
        pose proof (_retry_postPromise 3 {| url := u; payload := d |} s0) as Hrun;
        cbn in Hrun; destruct (_retry 3 (postPromise http u d) s0) as [o s3]
    end.
    destruct Hrun as (n & Hn1 & Hn2 & Hs3 & Hrej & Hlast).
    cbn in *. rewrite Hposts in *. exists n. subst s3.
    destruct o as [[]|e]; cbn.
    - eexists. repeat split; eauto; try lia.
    - destruct Hlast as [Hlast Hn3]. assert (n = 3%nat) as -> by lia.
      eexists. repeat split; eauto; try lia. }
  split; [|split; [|split; [|split]]].
  - unfold sendData. destruct (enabled (client s)); cbn; [|eauto].
    destruct (endAll clock error _ s) as [ended s1].
    unfold catch_, then_. destruct (_upload _ _) as [[a|e] s3]; cbn; eauto.
  - intros Hoff. unfold sendData. rewrite Hoff. cbn. auto.
  - exact Hon.
  - destruct (enabled (client s)) eqn:Hen.
    + destruct (Hon eq_refl) as (n & p & Hn & Hp & _).
      rewrite Hp, length_app, length_replicate. lia.
    + unfold sendData. rewrite Hen. cbn. lia.
  - exact Hretry.
Qed.

(** C10. [MetricAction.end] is idempotent: once [end] has been called
    on an action, any later call, with any argument, leaves [result],
    [failureMessage] and [endTime] as the first call set them. *)
Theorem C10_end_idempotent (a : MetricAction) (error1 error2 : Js.error)
    (now1 now2 : Z) (later : list (Js.error * Z)) :
  let first := end_ error1 now1 a in
  let second := end_ error2 now2 first in
  _ended first = true /\
  second = first /\
  result second = result first /\
  failureMessage second = failureMessage first /\
  endTime second = endTime first /\
  fold_left (fun action call => end_ call.1 call.2 action) later first = first.
Proof.
  cbn zeta.
  assert (Hended : _ended (end_ error1 now1 a) = true).
  { unfold end_. destruct (_ended a) eqn:Ha; [exact Ha|reflexivity]. }
  assert (Hsame : forall error now, end_ error now (end_ error1 now1 a) = end_ error1 now1 a).
  { intros error now. unfold end_ at 1. rewrite Hended. reflexivity. }
  repeat split; rewrite ?Hsame; try reflexivity; try assumption.
  induction later as [|[error now] later IH]; cbn; [reflexivity|].
  rewrite Hsame. exact IH.
Qed.

End MetricsProperties.

(* ===================================================================== *)
(** * The properties on concrete runs *)
(* ===================================================================== *)

Section Runs.

Import Dialog Fixture.

(** C1 as stated fails: a whitespace-only input is sent to the service
    and ends up in the history. *)
Lemma C1_counterexample :
  let w := world0 history0 false in
  let w' := (evaluateUtterance (accepting false) "   " w).2 in
  Js.trim "   " = EmptyString /\
  requests (trace w') <> [] /\
  utteranceCache (this w') <> utteranceCache (this w).
Proof. vm_compute. repeat split; discriminate. Qed.

Lemma C1_blank_input_is_sent_witness :
  let w := world0 history0 false in
  Js.trim "   " = EmptyString /\
  utteranceCache (this (evaluateUtterance unreachable "   " w).2) = utteranceCache (this w).
Proof.
  split; [reflexivity|].
  apply (C1_blank_input_is_sent unreachable "   " (world0 history0 false) eq_refl).
  reflexivity.
Defined.

Lemma C2_history_append_witness :
  let w := world0 history0 false in
  Js.trim " help " <> EmptyString /\
  utteranceCache (this (startSkillSimulation refusing "help" false w).2)
  = ["open my skill"; "help"].
Proof.
  assert (Hne : Js.trim " help " <> EmptyString) by (vm_compute; discriminate).
  split; [exact Hne|].
  apply (C2_history_append refusing " help " (world0 history0 false) Hne).
  exists refused. reflexivity.
Defined.

(** C3 as stated fails: after a start response with status 400 the
    history is one entry longer. *)
Lemma C3_counterexample :
  let w := world0 history0 false in
  let w' := (evaluateUtterance refusing "help" w).2 in
  response (startReply refusing "help" w) = Some refused /\
  300 <= statusCode refused /\
  length (utteranceCache (this w')) <> length (utteranceCache (this w)).
Proof. vm_compute. repeat split; discriminate. Qed.

Lemma C3_remote_error_status_witness :
  let w := world0 history0 false in
  let w' := (evaluateUtterance refusing "help" w).2 in
  300 <= statusCode refused /\
  utteranceCache (this w') = ["open my skill"; "help"].
Proof.
  assert (Hcode : 300 <= statusCode refused) by (vm_compute; discriminate).
  split; [exact Hcode|].
  apply (C3_remote_error_status refusing "help" (world0 history0 false) refused eq_refl Hcode).
Defined.

Lemma C4_session_reset_witness :
  let w := world0 history0 false in
  let w' := (evaluateUtterance (accepting true) "stop" w).2 in
  shouldEndSession (body (finished true)) = true /\
  newSession (this w') = true /\ utteranceCache (this w') = [].
Proof.
  split; [reflexivity|].
  destruct (C4_session_reset (accepting true) "stop" (world0 history0 false)
              started (finished true))
    as (_ & Hnew & Hcache & _); try reflexivity.
  split; [exact Hnew|exact Hcache].
Defined.

Lemma C5_continuation_witness :
  let w := world0 history0 true in
  let w' := (evaluateUtterance (accepting false) " help " w).2 in
  shouldEndSession (body (finished false)) = false /\
  newSession (this w') = false /\
  utteranceCache (this w') = ["open my skill"; "help"].
Proof.
  split; [reflexivity|].
  destruct (C5_continuation (accepting false) " help " (world0 history0 true)
              started (finished false))
    as (_ & Hnew & Hcache); try reflexivity.
  split; [exact Hnew|exact Hcache].
Defined.

(** C6 as stated fails: a configuration whose [newSession] is [false]
    gives a controller whose [newSession] is false. *)
Lemma C6_counterexample :
  newSession (constructor {| cfg_skillId := "amzn1.ask.skill.1"; cfg_locale := "en-US";
                             cfg_newSession := Js.VBool false |}) <> true.
Proof. vm_compute. discriminate. Qed.

Lemma C6_newSession_after_construction_witness :
  let configuration :=
    {| cfg_skillId := "amzn1.ask.skill.1"; cfg_locale := "en-US";
       cfg_newSession := Js.VUndefined |} in
  cfg_newSession configuration <> Js.VBool false /\
  newSession (constructor configuration) = true.
Proof.
  assert (Hne : Js.VUndefined <> Js.VBool false) by discriminate.
  split; [exact Hne|].
  apply (C6_newSession_after_construction (accepting false)
           {| cfg_skillId := "amzn1.ask.skill.1"; cfg_locale := "en-US";
              cfg_newSession := Js.VUndefined |}).
  exact Hne.
Defined.

Lemma C7_createReplayFile_witness :
  let w := world0 ["open my skill"; "help"] false in
  let w' := (recordCommand "replay.json --append-quit" w).2 in
  isNonBlankString (Some "replay.json") = true /\
  userInput <$> files (fs w') !! "replay.json"
  = Some ["open my skill"; "help"; ".quit"] /\
  utteranceCache (this w') = ["open my skill"; "help"].
Proof.
  split; [reflexivity|].
  destruct (C7_createReplayFile "replay.json" ["open my skill"; "help"]
              "replay.json --append-quit" "replay.json"
              (world0 ["open my skill"; "help"] false))
    as (_ & _ & _ & _ & Hrecord).
  destruct Hrecord as [_ Hquit];
    [reflexivity | reflexivity | discriminate | apply not_elem_of_empty |].
  destruct Hquit as (Hfile & _ & Hthis); [reflexivity | reflexivity |].
  cbn zeta. rewrite Hfile, Hthis. split; reflexivity.
Defined.

End Runs.

Section MoreRuns.

Import Fixture.

(** C8 as stated fails: after constructing for "a" and then for "b",
    an instance for "a" exists, at reference 0, yet constructing for
    "a" does not return it: a new object is allocated. *)
Lemma C8_counterexample :
  let p := (AskStates.constructAll disk0 ["a"; "b"] AskStates.start).2 in
  AskStates.existsFor p "a" = true /\
  AskStates._path <$> AskStates.heap p !! 0%nat = Some "a" /\
  (AskStates.constructor disk0 "a" p).1 <> AskStates.Returned 0%nat /\
  length (AskStates.heap (AskStates.constructor disk0 "a" p).2)
  = S (length (AskStates.heap p)).
Proof. vm_compute. repeat split; discriminate. Qed.

Lemma C8_stored_instance_witness :
  let p := (AskStates.constructAll disk0 ["a"] AskStates.start).2 in
  AskStates.instance p = Some 0%nat /\
  AskStates.constructor disk0 "a" p = (AskStates.Returned 0%nat, p).
Proof.
  split; [reflexivity|].
  apply (proj1 (C8_stored_instance disk0 "a"
                  (AskStates.constructAll disk0 ["a"] AskStates.start).2)
           0%nat {| AskStates._path := "a"; AskStates.content := Some tt |});
    reflexivity.
Defined.

Lemma C9_sendData_swallows_failures_witness :
  let s :=
    (Metrics.startAction clock0 "deploy" "command" "id-0"
       (Metrics.constructor clock0 "https://metrics" true None "2.0.0" "ask-cli" 0)).2 in
  Metrics.postRetries (Metrics.client s) = 3 /\
  exists b,
    (Metrics.sendData clock0 (failingUntil 3) (Js.EError "boom") s).1
    = Metrics.Resolved {| Metrics.success := b |}.
Proof.
  split; [reflexivity|].
  apply (C9_sendData_swallows_failures clock0 (failingUntil 3) (Js.EError "boom")
           (Metrics.startAction clock0 "deploy" "command" "id-0"
              (Metrics.constructor clock0 "https://metrics" true None "2.0.0" "ask-cli" 0)).2
           eq_refl).
Defined.

(** The three attempts fail: [{success: false}], after three POSTs. *)
Example sendData_exhausted :
  let s :=
    (Metrics.startAction clock0 "deploy" "command" "id-0"
       (Metrics.constructor clock0 "https://metrics" true None "2.0.0" "ask-cli" 0)).2 in
  let r := Metrics.sendData clock0 (failingUntil 3) (Js.EError "boom") s in
  r.1 = Metrics.Resolved {| Metrics.success := false |} /\
  length (Metrics.posts r.2) = 3%nat.
Proof. vm_compute. split; reflexivity. Qed.

(** The third attempt succeeds: [{success: true}]. *)
Example sendData_third_attempt :
  let s :=
    (Metrics.startAction clock0 "deploy" "command" "id-0"
       (Metrics.constructor clock0 "https://metrics" true None "2.0.0" "ask-cli" 0)).2 in
  let r := Metrics.sendData clock0 (failingUntil 2) Js.ENone s in
  r.1 = Metrics.Resolved {| Metrics.success := true |} /\
  length (Metrics.posts r.2) = 3%nat /\
  Metrics.actions (Metrics.data (Metrics.client r.2)) = [].
Proof. vm_compute. repeat split; reflexivity. Qed.

(** The end-to-end scenario of the dialog: one turn on a fresh
    session. *)
Example evaluateUtterance_open_my_skill :
  let w' := (Dialog.evaluateUtterance (accepting false) "open my skill" (world0 [] true)).2 in
  Dialog.newSession (Dialog.this w') = false /\
  Dialog.utteranceCache (Dialog.this w') = ["open my skill"] /\
  Dialog.trace w' =
    [Dialog.StartProgressSpinner "Sending simulation request to Alexa...";
     Dialog.StartSimulationRequest "open my skill" true;
     Dialog.UpdateProgressSpinner "Waiting for the simulation response...";
     Dialog.GetSimulationResultRequest (Some "sim-1");
     Dialog.TerminateProgressSpinner;
     Dialog.MessengerInfo "Alexa > Hi";
     Dialog.ReplCallback].
Proof. vm_compute. repeat split; reflexivity. Qed.

End MoreRuns.

(* ===================================================================== *)
(** * More on the dialog controller *)
(* ===================================================================== *)

Section TextFacts.

Lemma trimEnd_idempotent (s : string) : Js.trimEnd (Js.trimEnd s) = Js.trimEnd s.
Proof.
  induction s as [|c s IH]; cbn; [reflexivity|].
  destruct (Js.trimEnd s) as [|c' t] eqn:Ht.
  - destruct (Js.isWhiteSpace c) eqn:Hc; cbn; [reflexivity|]. rewrite Hc. reflexivity.
  - cbn. cbn in IH. destruct (Js.trimEnd t) as [|c'' t'] eqn:Ht'.
    + destruct (Js.isWhiteSpace c'); [discriminate|]. rewrite IH. reflexivity.
    + rewrite IH. reflexivity.
Qed.

Lemma trimStart_head (s : string) :
  match Js.trimStart s with
  | EmptyString => True
  | String c _ => Js.isWhiteSpace c = false
  end.
Proof.
  induction s as [|c s IH]; cbn; [exact I|].
  destruct (Js.isWhiteSpace c) eqn:Hc; [exact IH|exact Hc].
Qed.

Lemma trimEnd_head (c : ascii) (s : string) :
  Js.isWhiteSpace c = false -> exists t, Js.trimEnd (String c s) = String c t.
Proof.
  intros Hc. cbn. destruct (Js.trimEnd s); rewrite ?Hc; eauto.
Qed.

Lemma trim_idempotent (s : string) : Js.trim (Js.trim s) = Js.trim s.
Proof.
  unfold Js.trim. pose proof (trimStart_head s) as Hhead.
  destruct (Js.trimStart s) as [|c t] eqn:Hs; [reflexivity|].
  destruct (trimEnd_head c t Hhead) as [t' Ht']. rewrite Ht'.
  cbn [Js.trimStart]. rewrite Hhead, <- Ht'. apply trimEnd_idempotent.
Qed.

Lemma split_length (sep : ascii) (s : string) :
  length (Js.split sep s) = S (Text.count sep s).
Proof.
  induction s as [|c s IH]; cbn; [reflexivity|].
  destruct (Ascii.eqb c sep); cbn.
  - rewrite IH. reflexivity.
  - destruct (Js.split sep s); cbn in *; lia.
Qed.

End TextFacts.

Section DialogTurns.

Import Dialog Session.
Local Open Scope dialog_scope.

Context {Body : Type} `{BodyLens Body} `{ResponseParser Body} `{StringUtils}.
Variable super : SkillSimulationController Body.

Ltac open_turn :=
  unfold evaluateUtterance, getSkillSimulationResult, clearSession, startReply, pollReply,
    set_newSession, set_utteranceCache, when in *;
  unfold bind, emit, get_this, set_this, ret, throw in *;
  rewrite ?startSkillSimulation_run in *; cbn in *.

Ltac on t := let E := fresh "E" in destruct t eqn:E; cbn; rewrite ?E; cbn.

(** Every way through a turn, one goal each. *)
Ltac turn_cases input w :=
  open_turn;
  let start := constr:(super_startSkillSimulation super (Js.trim input) (newSession (this w))) in
  let Herr := fresh "Herr" in
  let Hresp := fresh "Hresp" in
  destruct (Js.truthy (err start)) eqn:Herr; cbn;
  [ | let sr := fresh "sr" in
      destruct (response start) as [sr|] eqn:Hresp; cbn;
      [ let Hcode := fresh "Hcode" in
        destruct (Z.leb_spec 300 (statusCode sr)) as [Hcode|Hcode]; cbn;
        [ | let Hperr := fresh "Hperr" in
            let poll := constr:(super_getSkillSimulationResult super (view_id (body sr))) in
            destruct (Js.truthy (err poll)) eqn:Hperr; cbn; rewrite ?Hperr; cbn;
            [ | let g := fresh "g" in
                let Hpresp := fresh "Hpresp" in
                destruct (response poll) as [g|] eqn:Hpresp; cbn;
                [ let Hmsg := fresh "Hmsg" in
                  let Hend := fresh "Hend" in
                  destruct (getErrorMessage (body g)) as [[|? ?]|] eqn:Hmsg; cbn;
                  try (destruct (shouldEndSession (body g)) eqn:Hend; cbn;
                       rewrite forEach_log; cbn)
                | ] ] ]
      | ] ].




(** X2. A turn never touches the files, the skill id or the locale, and
    it changes [newSession] only when polling came back with a response
    that carries no service-side error: on every failure of the start
    call or of polling, [newSession] is what it was. *)
Theorem X2_turn_preserves (input : string) (w : World) :
  let w' := (evaluateUtterance super input w).2 in
  fs w' = fs w /\
  _skillId (this w') = _skillId (this w) /\
  _locale (this w') = _locale (this w) /\
  (newSession (this w') <> newSession (this w) ->
   exists startResponse getResponse,
     Js.truthy (err (startReply super input w)) = false /\
     response (startReply super input w) = Some startResponse /\
     statusCode startResponse < 300 /\
     Js.truthy (err (pollReply super startResponse)) = false /\
     response (pollReply super startResponse) = Some getResponse /\
     Js.truthyString (getErrorMessage (body getResponse)) = false).
Proof.
  cbn zeta.
  turn_cases input w; repeat split; try congruence;
    intros _; eexists _, _; repeat split; eauto; rewrite ?Hmsg; reflexivity.
Qed.

(** X3. When the terminal poll response carries a service-side error
    message, the turn reports that message and nothing else: no caption
    is shown and the session is not reset, whatever the response says
    about the end of the session; the utterance stays in the history
    and [newSession] is what it was. *)
Theorem X3_service_error (input : string) (w : World)
    (startResponse getResponse : Response Body) (message : string) :
  Js.truthy (err (startReply super input w)) = false ->
  response (startReply super input w) = Some startResponse ->
  statusCode startResponse < 300 ->
  Js.truthy (err (pollReply super startResponse)) = false ->
  response (pollReply super startResponse) = Some getResponse ->
  getErrorMessage (body getResponse) = Some message ->
  message <> EmptyString ->
  let r := evaluateUtterance super input w in
  r.1 = Returned tt /\
  trace r.2 =
    (trace w ++
     [StartProgressSpinner "Sending simulation request to Alexa...";
      StartSimulationRequest (Js.trim input) (newSession (this w));
      UpdateProgressSpinner "Waiting for the simulation response...";
      GetSimulationResultRequest (view_id (body startResponse));
      TerminateProgressSpinner;
      MessengerError (Js.EString message);
      ReplCallback])%list /\
  utteranceCache (this r.2) = (utteranceCache (this w) ++ [Js.trim input])%list /\
  newSession (this r.2) = newSession (this w).
Proof.
  intros Herr Hresp Hcode Hperr Hpresp Hmsg Hne. cbn zeta.
  open_turn. rewrite Herr, Hresp.
  destruct (Z.leb_spec 300 (statusCode startResponse)) as [Hle|_]; [lia|].
  rewrite Hperr, Hpresp, Hmsg. cbn.
  destruct message as [|c m]; [congruence|]. cbn.
  rewrite <- !app_assoc. cbn. auto.
Qed.

(** X4. On a successful turn the trace is: the spinner, the start
    request, the spinner update, the poll request for the id of the
    start response, the end of the spinner, "Session ended" when the
    session ends, every caption in the order of the response, each
    behind "Alexa > ", and the callback. *)
Theorem X4_captions_in_order (input : string) (w : World)
    (startResponse getResponse : Response Body) :
  Js.truthy (err (startReply super input w)) = false ->
  response (startReply super input w) = Some startResponse ->
  statusCode startResponse < 300 ->
  Js.truthy (err (pollReply super startResponse)) = false ->
  response (pollReply super startResponse) = Some getResponse ->
  Js.truthyString (getErrorMessage (body getResponse)) = false ->
  trace (evaluateUtterance super input w).2 =
    (trace w ++
     [StartProgressSpinner "Sending simulation request to Alexa...";
      StartSimulationRequest (Js.trim input) (newSession (this w));
      UpdateProgressSpinner "Waiting for the simulation response...";
      GetSimulationResultRequest (view_id (body startResponse));
      TerminateProgressSpinner] ++
     (if shouldEndSession (body getResponse) then [MessengerInfo "Session ended"] else []) ++
     map (fun caption => MessengerInfo ("Alexa > " +:+ caption))
         (getCaption (body getResponse)) ++
     [ReplCallback])%list.
Proof.
  intros Herr Hresp Hcode Hperr Hpresp Hmsg.
  open_turn. rewrite Herr, Hresp.
  destruct (Z.leb_spec 300 (statusCode startResponse)) as [Hle|_]; [lia|].
  rewrite Hperr, Hpresp, Hmsg. cbn.
  destruct (shouldEndSession (body getResponse)); cbn;
    rewrite forEach_log; cbn; rewrite <- !app_assoc; reflexivity.
Qed.

(** X5. White space around the input does not matter: a turn on an
    input and a turn on the trimmed input do the same. *)
Theorem X5_trim_insensitive (input : string) (w : World) :
  evaluateUtterance super input w = evaluateUtterance super (Js.trim input) w.
Proof.
  unfold evaluateUtterance. rewrite trim_idempotent. reflexivity.
Qed.



End DialogTurns.

Section DialogRecord.

Import Dialog Session.
Local Open Scope dialog_scope.

Context `{StringUtils}.

Lemma createReplayFile_cases (filename : string) (utterances : list string) (w : World) :
  createReplayFile filename utterances w = (Returned tt, w) \/
  (filename ∈ unwritable (fs w) /\
   createReplayFile filename utterances w = (Thrown (FsError filename), w)) \/
  createReplayFile filename utterances w =
    (Returned tt,
     {| this := this w;
        fs := {| files :=
                   <[filename := {| skillId := _skillId (this w);
                                    locale := _locale (this w);
                                    type := "text";
                                    userInput := utterances |}]> (files (fs w));
                 unwritable := unwritable (fs w) |};
        trace := trace w |}).
Proof.
  destruct (isNonBlankString (Some filename)) eqn:Hok.
  - destruct (decide (filename ∈ unwritable (fs w))) as [Hin|Hout].
    + right. left. split; [assumption|].
      unfold createReplayFile, outputJSONSync, bind, get_fs, get_this, throw.
      rewrite Hok. cbn. rewrite decide_True by assumption. reflexivity.
    + right. right. apply createReplayFile_run; assumption.
  - left. unfold createReplayFile. rewrite Hok. reflexivity.
Qed.

(** The document that the record command writes. *)
Lemma record_write (filePath : string) (utterances : list string) (info : string)
    (w : World) :
  let r := try_catch (createReplayFile filePath utterances ;; emit (MessengerInfo info))
                     (fun e => emit (SetupCallback e)) w in
  r.1 = Returned tt /\
  this r.2 = this w /\
  unwritable (fs r.2) = unwritable (fs w) /\
  (exists added,
      trace r.2 = (trace w ++ added)%list /\ (length added <= 1)%nat /\
      requests added = [] /\ incorrectFormat ∉ added) /\
  (files (fs r.2) = files (fs w) \/
   files (fs r.2) =
     <[filePath := {| skillId := _skillId (this w); locale := _locale (this w);
                      type := "text"; userInput := utterances |}]> (files (fs w))).
Proof.
  cbn zeta. unfold try_catch, bind, emit.
  destruct (createReplayFile_cases filePath utterances w) as [E|[[_ E]|E]];
    rewrite E; cbn;
    (split; [reflexivity|]); (split; [reflexivity|]); (split; [reflexivity|]);
    (split; [eexists; split; [reflexivity|]; cbn; repeat split; auto;
             intros Hin; apply list_elem_of_singleton in Hin; discriminate|]);
    auto.
Qed.

Lemma nothing_done (w : World) :
  exists added : list Event,
    trace w = (trace w ++ added)%list /\ (length added <= 1)%nat /\
    requests added = [] /\ incorrectFormat ∉ added.
Proof.
  exists []. rewrite app_nil_r. cbn. repeat split; auto. apply not_elem_of_nil.
Qed.

Ltac split5 := split; [|split; [|split; [|split]]].

(** What the record command does, in every case. *)
Lemma recordCommand_effect (recordArgs : string) (w : World) :
  let tokens := Js.split Js.space (Js.trim recordArgs) in
  let rejected :=
    negb (isNonBlankString (Some recordArgs)) || (2 <? length tokens)%nat in
  let r := recordCommand recordArgs w in
  r.1 = Returned tt /\
  this r.2 = this w /\
  unwritable (fs r.2) = unwritable (fs w) /\
  (exists added,
      trace r.2 = (trace w ++ added)%list /\ (length added <= 1)%nat /\
      requests added = [] /\ (rejected = false -> incorrectFormat ∉ added)) /\
  (files (fs r.2) = files (fs w) \/
   exists (filePath : string) (quit : bool),
     tokens !! 0%nat = Some filePath /\
     files (fs r.2) =
       <[filePath := {| skillId := _skillId (this w); locale := _locale (this w);
                        type := "text";
                        userInput :=
                          (utteranceCache (this w)
                           ++ (if quit then [".quit"] else []))%list |}]>
         (files (fs w))).
Proof.
  cbn zeta. unfold recordCommand.
  set (tokens := Js.split Js.space (Js.trim recordArgs)).
  destruct (negb (isNonBlankString (Some recordArgs)) || _) eqn:Hrej.
  { cbn. split5; auto. eexists. split; [reflexivity|]. cbn.
    repeat split; auto. discriminate. }
  unfold _validateRecordCommandInput.
  assert (Hnothing : exists added : list Event,
             trace w = (trace w ++ added)%list /\ (length added <= 1)%nat /\
             requests added = [] /\ (false = false -> incorrectFormat ∉ added)).
  { destruct (nothing_done w) as (added & ? & ? & ? & ?). exists added. auto. }
  destruct (isNonBlankString (tokens !! 1%nat)).
  - destruct (negb (bool_decide (tokens !! 1%nat = Some "--append-quit"))).
    + cbn. split5; auto. eexists. split; [reflexivity|]. cbn.
      repeat split; auto. intros _ Hin.
      apply list_elem_of_singleton in Hin. discriminate.
    + cbv beta iota zeta delta [bind ret get_this].
      destruct (tokens !! 0%nat) as [filePath|]; [|cbn; split5; auto].
      destruct (negb (Js.isEmptyString filePath)); [|cbn; split5; auto].
      destruct (record_write filePath (utteranceCache (this w) ++ [".quit"])%list
                  ("Created replay file at " +:+ filePath
                   +:+ (" (appended " +:+ Js.dquote +:+ ".quit" +:+ Js.dquote
                        +:+ " to list of utterances)."))
                  w) as (H1 & H2 & H3 & (added & Ha & Hb & Hc & Hd) & H5).
      split5; [exact H1|exact H2|exact H3|exists added; auto|].
      destruct H5 as [H5|H5]; [left; exact H5|right; exists filePath, true; auto].
  - cbv beta iota zeta delta [bind ret get_this].
    destruct (tokens !! 0%nat) as [filePath|]; [|cbn; split5; auto].
    destruct (negb (Js.isEmptyString filePath)); [|cbn; split5; auto].
    destruct (record_write filePath (utteranceCache (this w) ++ [])%list
                ("Created replay file at " +:+ filePath +:+ EmptyString)
                w) as (H1 & H2 & H3 & (added & Ha & Hb & Hc & Hd) & H5).
    split5; [exact H1|exact H2|exact H3|exists added; auto|].
    destruct H5 as [H5|H5]; [left; exact H5|right; exists filePath, false; auto].
Qed.

(** X6. The record command never throws and never changes the
    controller or contacts the service: it adds at most one event to
    the trace, which is no request, and it leaves every file other than
    the one named by its first argument as it was. *)
Theorem X6_record_is_safe (recordArgs : string) (w : World) :
  let r := recordCommand recordArgs w in
  r.1 = Returned tt /\
  this r.2 = this w /\
  unwritable (fs r.2) = unwritable (fs w) /\
  (exists added,
      trace r.2 = (trace w ++ added)%list /\ (length added <= 1)%nat /\
      requests added = []) /\
  (forall other,
      Js.split Js.space (Js.trim recordArgs) !! 0%nat <> Some other ->
      files (fs r.2) !! other = files (fs w) !! other).
Proof.
  cbn zeta.
  destruct (recordCommand_effect recordArgs w)
    as (H1 & H2 & H3 & (added & Ha & Hb & Hc & _) & H5).
  split5; [exact H1|exact H2|exact H3|exists added; auto|].
  intros other Hne. destruct H5 as [->|(filePath & quit & Htok & ->)]; [reflexivity|].
  apply lookup_insert_ne. congruence.
Qed.

(** X7. The record command answers "Incorrect format" and does nothing
    else exactly when its arguments are blank or, once trimmed, hold
    two spaces or more: the file name and the flag must be separated by
    a single space. *)
Theorem X7_record_format (recordArgs : string) (w : World) :
  (isNonBlankString (Some recordArgs) = false \/
   (2 <= Text.count Js.space (Js.trim recordArgs))%nat) <->
  recordCommand recordArgs w =
    (Returned tt,
     {| this := this w; fs := fs w; trace := (trace w ++ [incorrectFormat])%list |}).
Proof.
  pose proof (split_length Js.space (Js.trim recordArgs)) as Hlen.
  split.
  - intros Hbad. unfold recordCommand.
    replace (negb (isNonBlankString (Some recordArgs)) || _) with true; [reflexivity|].
    symmetry. apply orb_true_iff. destruct Hbad as [->|Hcount]; [left; reflexivity|].
    right. apply Nat.ltb_lt. lia.
  - intros Hrun.
    destruct (recordCommand_effect recordArgs w)
      as (_ & _ & _ & (added & Ha & _ & _ & Hno) & _).
    cbn zeta in Hno. rewrite Hrun in Ha. cbn in Ha.
    apply app_inv_head in Ha. subst added.
    destruct (negb (isNonBlankString (Some recordArgs))
              || (2 <? length (Js.split Js.space (Js.trim recordArgs)))%nat) eqn:Hrej.
    + apply orb_true_iff in Hrej. destruct Hrej as [Hblank|Hlong].
      * left. apply negb_true_iff. exact Hblank.
      * right. apply Nat.ltb_lt in Hlong. lia.
    + exfalso. apply (Hno eq_refl). apply list_elem_of_singleton. reflexivity.
Qed.

(** X8. A second argument other than [--append-quit] makes the record
    command warn that it cannot validate it, and write nothing. *)
Theorem X8_record_unknown_flag (recordArgs path flag : string) (w : World) :
  isNonBlankString (Some recordArgs) = true ->
  Js.split Js.space (Js.trim recordArgs) = [path; flag] ->
  isNonBlankString (Some flag) = true ->
  flag <> "--append-quit" ->
  recordCommand recordArgs w =
    (Returned tt,
     {| this := this w; fs := fs w;
        trace := (trace w ++
                  [MessengerWarn ("Unable to validate arguments: " +:+ Js.dquote +:+ flag
                                  +:+ Js.dquote +:+ ". " +:+ RECORD_FORMAT)])%list |}).
Proof.
  intros Hargs Hsplit Hflag Hne. unfold recordCommand.
  rewrite Hargs, Hsplit. cbn.
  unfold _validateRecordCommandInput. cbn. rewrite Hflag.
  rewrite bool_decide_eq_false_2 by congruence. reflexivity.
Qed.

(** X9. When the file system refuses the write, the record command
    hands the error to the callback of [setupSpecialCommands], reports
    no created file and leaves the files as they were. *)
Theorem X9_record_write_refused (recordArgs path : string) (w : World) :
  isNonBlankString (Some recordArgs) = true ->
  (Js.split Js.space (Js.trim recordArgs) = [path] /\ isNonBlankString None = false) \/
  (Js.split Js.space (Js.trim recordArgs) = [path; "--append-quit"] /\
   isNonBlankString (Some "--append-quit") = true) ->
  isNonBlankString (Some path) = true ->
  path <> EmptyString ->
  path ∈ unwritable (fs w) ->
  recordCommand recordArgs w =
    (Returned tt,
     {| this := this w; fs := fs w;
        trace := (trace w ++ [SetupCallback (FsError path)])%list |}).
Proof.
  intros Hargs Hsplit Hpath Hne Hin. unfold recordCommand.
  destruct path as [|c p]; [congruence|].
  destruct Hsplit as [[Hsplit Hflag]|[Hsplit Hflag]]; rewrite Hargs, Hsplit; cbn;
    unfold _validateRecordCommandInput; cbn; rewrite Hflag;
    rewrite ?bool_decide_eq_true_2 by reflexivity; cbn;
    unfold bind, ret, get_this, try_catch, createReplayFile, outputJSONSync,
      get_fs, throw, emit; cbn;
    rewrite Hpath; cbn; rewrite decide_True by assumption; reflexivity.
Qed.

End DialogRecord.

Section DialogSession.

Import Dialog Session.
Local Open Scope dialog_scope.

Context {Body : Type} `{BodyLens Body} `{ResponseParser Body} `{StringUtils}.



End DialogSession.

(* ===================================================================== *)
(** * More on the metric client *)
(* ===================================================================== *)

Section MetricsCalls.

Import Metrics MetricsSetup.

Variable clock : nat -> Z.
Variable http : nat -> Post -> settled unit.

(** X11. Closing an open action records the date and the message of the
    error: the message of an [Error] object, the string itself, or
    nothing; the result is "Failure" exactly when that message is not
    empty, so that [null], the empty string and an [Error] with an
    empty message all give "Success"; the name, the type, the id and
    the start time are kept. *)
Theorem X11_end_result (error : Js.error) (now : Z) (a : MetricAction) :
  _ended a = false ->
  let message :=
    match error with
    | Js.ENone => EmptyString
    | Js.EError m => m
    | Js.EString s => s
    end in
  let a' := end_ error now a in
  _ended a' = true /\
  endTime a' = Some now /\
  failureMessage a' = message /\
  (message <> EmptyString -> result a' = Some MetricActionResult.FAILURE) /\
  (message = EmptyString -> result a' = Some MetricActionResult.SUCCESS) /\
  name a' = name a /\ type a' = type a /\ id a' = id a /\ startTime a' = startTime a.
Proof.
  intros Hopen. cbn zeta. unfold end_. rewrite Hopen. cbn.
  destruct error as [|[|c m]|[|c s]]; cbn; repeat split; congruence.
Qed.

Lemma end_closed (error : Js.error) (now : Z) (a : MetricAction) :
  closed a -> end_ error now a = a.
Proof. intros (Hended & _). unfold end_. rewrite Hended. reflexivity. Qed.

Lemma end_closes (error : Js.error) (now : Z) (a : MetricAction) :
  _ended a = false -> closed (end_ error now a).
Proof.
  intros Hopen. unfold closed, end_. rewrite Hopen. cbn. repeat split; eauto.
Qed.

(** Closing all actions closes them all. *)
Lemma endAll_closed (error : Js.error) (l : list MetricAction) (s : State) :
  Forall (fun a => _ended a = true -> closed a) l ->
  Forall closed (endAll clock error l s).1.
Proof.
  revert s. induction l as [|a l IH]; intros s Hl; cbn; [constructor|].
  inversion Hl as [|? ? Ha Hl']; subst.
  destruct (_ended a) eqn:Hended.
  - specialize (IH s Hl'). destruct (endAll clock error l s) as [l' s']. cbn in *.
    constructor; [apply Ha; reflexivity|exact IH].
  - specialize (IH {| client := client s; dates := S (dates s); posts := posts s |} Hl').
    destruct (endAll clock error l _) as [l' s']. cbn in *.
    constructor; [apply end_closes; assumption|exact IH].
Qed.

(** Closing ended actions changes nothing and reads no date. *)
Lemma endAll_of_ended (error : Js.error) (l : list MetricAction) (s : State) :
  Forall (fun a => _ended a = true) l -> endAll clock error l s = (l, s).
Proof.
  revert s. induction l as [|a l IH]; intros s Hl; cbn; [reflexivity|].
  inversion Hl as [|? ? Ha Hl']; subst.
  rewrite Ha, (IH s Hl'). reflexivity.
Qed.

Lemma endAll_ended (error : Js.error) (l : list MetricAction) (s : State) :
  Forall (fun a => _ended a = true) (endAll clock error l s).1.
Proof.
  revert s. induction l as [|a l IH]; intros s; cbn; [constructor|].
  destruct (_ended a) eqn:Hended.
  - specialize (IH s). destruct (endAll clock error l s) as [l' s']. cbn in *.
    constructor; assumption.
  - specialize (IH {| client := client s; dates := S (dates s); posts := posts s |}).
    destruct (endAll clock error l _) as [l' s']. cbn in *.
    constructor; [|exact IH]. unfold end_. rewrite Hended. reflexivity.
Qed.

(** One [sendData] on an enabled client: the actions are closed, one
    payload is built and posted [n] times. *)
Lemma sendData_enabled (error : Js.error) (s : State) :
  enabled (client s) = true ->
  let ended := (endAll clock error (actions (data (client s))) s).1 in
  let s1 := (endAll clock error (actions (data (client s))) s).2 in
  let d := data (client s) in
  let sent :=
    {| version := version d; machineId := machineId d; timeStarted := timeStarted d;
       newUser := newUser d; timeUploaded := Some (clock (dates s1));
       clientId := clientId d; actions := ended |} in
  let r := sendData clock http error s in
  exists n : nat,
    (1 <= n)%nat /\ Z.of_nat n <= Z.max 1 (postRetries (client s)) /\
    posts r.2 = (posts s ++ replicate n {| url := serverUrl (client s); payload := sent |})%list /\
    serverUrl (client r.2) = serverUrl (client s) /\
    postRetries (client r.2) = postRetries (client s) /\
    enabled (client r.2) = true /\
    version (data (client r.2)) = version d /\
    clientId (data (client r.2)) = clientId d /\
    ((r.1 = Resolved {| success := true |} /\ actions (data (client r.2)) = []) \/
     (r.1 = Resolved {| success := false |} /\ actions (data (client r.2)) = ended)).
Proof.
  intros Hen. cbn zeta. unfold sendData. rewrite Hen. cbn.
  pose proof (endAll_posts clock error (actions (data (client s))) s) as [Hposts Hclient].
  destruct (endAll clock error (actions (data (client s))) s) as [ended s1].
  cbn in Hposts, Hclient |- *.
  unfold catch_, then_, _upload. cbn. rewrite Hclient.
  match goal with
  | |- context [_retry ?k (postPromise http ?u ?d) ?s0] =>
      pose proof (_retry_postPromise http k {| url := u; payload := d |} s0) as Hrun;
      cbn in Hrun; destruct (_retry k (postPromise http u d) s0) as [o s3]
  end.
  destruct Hrun as (n & Hn1 & Hn2 & Hs3 & _ & Hlast).
  cbn in *. rewrite Hposts in *. subst s3. exists n.
  destruct o as [[]|e]; cbn; rewrite ?Hen; repeat split; auto.
Qed.

Lemma sendData_disabled (error : Js.error) (s : State) :
  enabled (client s) = false ->
  sendData clock http error s = (Resolved {| success := true |}, set_actions [] s).
Proof. intros Hoff. unfold sendData. rewrite Hoff. reflexivity. Qed.

(** What every call keeps. *)
Lemma call_keeps (c : Call) (s : State) :
  let s' := call clock http s c in
  serverUrl (client s') = serverUrl (client s) /\
  postRetries (client s') = postRetries (client s) /\
  enabled (client s') = enabled (client s) /\
  version (data (client s')) = version (data (client s)) /\
  clientId (data (client s')) = clientId (data (client s)).
Proof.
  cbn zeta. destruct c as [name type uuid|error]; cbn; [auto 6|].
  destruct (enabled (client s)) eqn:Hen.
  - destruct (sendData_enabled error s Hen) as (n & _ & _ & _ & H1 & H2 & H3 & H4 & H5 & _).
    rewrite H1, H2, H3, H4, H5. auto 6.
  - rewrite sendData_disabled by assumption. cbn. rewrite Hen. auto 6.
Qed.

Lemma sound_call (endpoint pckVersion pckName : string) (c : Call) (s : State) :
  sound endpoint pckVersion pckName s ->
  sound endpoint pckVersion pckName (call clock http s c).
Proof.
  intros (Hurl & Hretries & Hversion & Hname & Hactions & Hposts).
  destruct (call_keeps c s) as (K1 & K2 & K3 & K4 & K5).
  unfold sound. rewrite K1, K2, K4, K5.
  split; [exact Hurl|]. split; [exact Hretries|]. split; [exact Hversion|].
  split; [exact Hname|].
  destruct c as [name type uuid|error]; cbn.
  - split; [|exact Hposts].
    apply Forall_app. split; [exact Hactions|].
    apply Forall_singleton. cbn. discriminate.
  - destruct (enabled (client s)) eqn:Hen.
    + destruct (sendData_enabled error s Hen)
        as (n & _ & _ & Hsent & _ & _ & _ & _ & _ & Hleft).
      pose proof (endAll_closed error (actions (data (client s))) s Hactions) as Hclosed.
      split.
      * destruct Hleft as [[_ ->]|[_ ->]]; [constructor|].
        eapply Forall_impl; [exact Hclosed|]. auto.
      * rewrite Hsent. apply Forall_app. split; [exact Hposts|].
        apply Forall_replicate. cbn. auto 6.
    + rewrite sendData_disabled by assumption. cbn. split; [constructor|exact Hposts].
Qed.

Lemma sound_calls (endpoint pckVersion pckName : string) (cs : list Call) (s : State) :
  sound endpoint pckVersion pckName s ->
  sound endpoint pckVersion pckName (calls clock http cs s).
Proof.
  unfold calls. revert s. induction cs as [|c cs IH]; intros s Hs; cbn; [exact Hs|].
  apply IH, sound_call, Hs.
Qed.

Lemma sound_new (env : Environment) (endpoint pckVersion pckName uuid : string)
    (dates0 : nat) (c : AppConfig) :
  sound endpoint pckVersion pckName
        (newMetricClient clock env endpoint pckVersion pckName uuid dates0 c).1.
Proof.
  unfold newMetricClient. destruct (_getMachineId _ env uuid c) as [id c']. cbn.
  unfold sound. cbn. repeat split; constructor.
Qed.

(** X12. Whatever calls are made on a client after its construction,
    every POST it has issued went to the configured endpoint and
    carried the version and name of the package, an upload date, and
    only actions that are closed: ended, with an end time and a
    result. *)
Theorem X12_posts_are_closed (env : Environment)
    (endpoint pckVersion pckName uuid : string) (dates0 : nat) (c : AppConfig)
    (cs : list Call) :
  let s := calls clock http cs
             (newMetricClient clock env endpoint pckVersion pckName uuid dates0 c).1 in
  Forall (fun p =>
            url p = endpoint /\
            version (payload p) = pckVersion /\
            clientId (payload p) = pckName /\
            is_Some (timeUploaded (payload p)) /\
            Forall closed (actions (payload p)))
         (posts s).
Proof.
  cbn zeta.
  apply (sound_calls endpoint pckVersion pckName cs), sound_new.
Qed.

(** X13. Whatever calls are made on a client after its construction, it
    has issued at most three POSTs for each [sendData]. *)
Theorem X13_three_posts_per_send (env : Environment)
    (endpoint pckVersion pckName uuid : string) (dates0 : nat) (c : AppConfig)
    (cs : list Call) :
  let s := calls clock http cs
             (newMetricClient clock env endpoint pckVersion pckName uuid dates0 c).1 in
  (length (posts s) <= 3 * sends cs)%nat.
Proof.
  cbn zeta.
  assert (Hgen : forall s,
             postRetries (client s) = 3 ->
             (length (posts (calls clock http cs s)) <= length (posts s) + 3 * sends cs)%nat).
  { unfold calls, sends. induction cs as [|k cs IH]; intros s Hs; cbn; [lia|].
    destruct (call_keeps k s) as (_ & Hk & _).
    specialize (IH (call clock http s k) ltac:(congruence)).
    destruct k as [name type uuid'|error]; cbn in *; [lia|].
    assert (length (posts (sendData clock http error s).2) <= length (posts s) + 3)%nat.
    { destruct (enabled (client s)) eqn:Hen.
      - destruct (sendData_enabled error s Hen) as (n & _ & Hn & -> & _).
        rewrite length_app, length_replicate. lia.
      - rewrite sendData_disabled by assumption. cbn. lia. }
    lia. }
  pose proof (Hgen (newMetricClient clock env endpoint pckVersion pckName uuid dates0 c).1)
    as Hnew.
  unfold newMetricClient in *. destruct (_getMachineId _ env uuid c) as [id c'].
  cbn in *. apply Hnew. reflexivity.
Qed.

(** X14. Opting out is honoured: outside an environment profile, when
    ASK_SHARE_USAGE is "false", or there is no configuration file, or
    the configuration does not share usage, the client has no machine
    id, leaves the configuration as it is, and, whatever calls are made
    on it, never issues a POST; each [sendData] resolves with
    [{success: true}] and drops the actions. *)
Theorem X14_opt_out (env : Environment) (endpoint pckVersion pckName uuid : string)
    (dates0 : nat) (c : AppConfig) (cs : list Call) (error : Js.error) :
  isEnvProfile env = false ->
  ASK_SHARE_USAGE env = Some "false" \/ configFileExists env = false \/
  getShareUsage c = false ->
  let new := newMetricClient clock env endpoint pckVersion pckName uuid dates0 c in
  let s := calls clock http cs new.1 in
  new.2 = c /\
  machineId (getData new.1) = None /\
  posts s = [] /\
  (sendData clock http error s).1 = Resolved {| success := true |} /\
  actions (getData (sendData clock http error s).2) = [].
Proof.
  intros Hprofile Hout. cbn zeta.
  assert (Hoff : _isEnabled env c = false).
  { unfold _isEnabled. rewrite Hprofile.
    destruct Hout as [->|[->| ->]]; [reflexivity| |];
      destruct (bool_decide _); try reflexivity;
      destruct (configFileExists env); reflexivity. }
  unfold newMetricClient, _getMachineId. rewrite Hoff. cbn.
  split; [reflexivity|]. split; [reflexivity|].
  assert (Hgen : forall s, enabled (client s) = false -> posts s = [] ->
             enabled (client (calls clock http cs s)) = false /\
             posts (calls clock http cs s) = []).
  { unfold calls. induction cs as [|k cs IH]; intros s Hen Hposts; cbn; [auto|].
    apply IH.
    - destruct (call_keeps k s) as (_ & _ & -> & _). exact Hen.
    - destruct k as [name type uuid'|e]; cbn; [exact Hposts|].
      rewrite sendData_disabled by assumption. exact Hposts. }
  destruct (Hgen (constructor clock endpoint false None pckVersion pckName dates0)
              eq_refl eq_refl) as [Hen Hposts].
  split; [exact Hposts|].
  rewrite sendData_disabled by assumption. split; reflexivity.
Qed.

(** X15. After a [sendData] that resolved with [{success: false}] the
    client still holds the actions, all ended, and the next [sendData]
    posts exactly those actions, whatever error it is given. *)
Theorem X15_failed_upload_is_resent (error1 error2 : Js.error) (s : State) :
  (sendData clock http error1 s).1 = Resolved {| success := false |} ->
  let kept := actions (data (client (sendData clock http error1 s).2)) in
  let r := sendData clock http error2 (sendData clock http error1 s).2 in
  kept = (endAll clock error1 (actions (data (client s))) s).1 /\
  Forall (fun a => _ended a = true) kept /\
  exists (n : nat) (p : Post),
    (1 <= n)%nat /\
    posts r.2 = (posts (sendData clock http error1 s).2 ++ replicate n p)%list /\
    actions (payload p) = kept.
Proof.
  intros Hfailed. cbn zeta.
  destruct (enabled (client s)) eqn:Hen;
    [|rewrite sendData_disabled in Hfailed by assumption; discriminate].
  destruct (sendData_enabled error1 s Hen)
    as (n1 & _ & _ & _ & _ & _ & Hen1 & _ & _ & [[Hok _]|[_ Hkept]]);
    [congruence|].
  pose proof (endAll_ended error1 (actions (data (client s))) s) as Hended.
  split; [exact Hkept|]. split; [rewrite Hkept; exact Hended|].
  destruct (sendData_enabled error2 _ Hen1) as (n & Hn & _ & Hposts & _).
  eexists n, _. split; [exact Hn|]. split; [exact Hposts|].
  cbn. rewrite endAll_of_ended by (rewrite Hkept; exact Hended). reflexivity.
Qed.

(** X16. After a [sendData] that resolved with [{success: true}] the
    client holds no action, so that nothing is uploaded twice. *)
Theorem X16_successful_upload_clears (error : Js.error) (s : State) :
  (sendData clock http error s).1 = Resolved {| success := true |} ->
  actions (data (client (sendData clock http error s).2)) = [].
Proof.
  intros Hok. destruct (enabled (client s)) eqn:Hen.
  - destruct (sendData_enabled error s Hen)
      as (n & _ & _ & _ & _ & _ & _ & _ & _ & [[_ Hnone]|[Hfailed _]]);
      [exact Hnone|congruence].
  - rewrite sendData_disabled by assumption. reflexivity.
Qed.

(** X17. In an environment profile the client is enabled whatever
    ASK_SHARE_USAGE and the configuration say, its machine id is
    "all_environmental", and the configuration is neither changed nor
    written. *)
Theorem X17_environment_profile (env : Environment)
    (endpoint pckVersion pckName uuid : string) (dates0 : nat) (c : AppConfig) :
  isEnvProfile env = true ->
  let new := newMetricClient clock env endpoint pckVersion pckName uuid dates0 c in
  enabled (client new.1) = true /\
  machineId (getData new.1) = Some "all_environmental" /\
  new.2 = c.
Proof.
  intros Hprofile. cbn zeta.
  unfold newMetricClient, _isEnabled, _getMachineId. rewrite Hprofile. cbn. auto.
Qed.

(** X18. The machine id is drawn once: when [_getMachineId] has run
    with a non-empty uuid, running it again gives the same id and
    neither changes nor writes the configuration, whatever uuid would
    be drawn the second time. *)
Theorem X18_machine_id_is_stable (enabled : bool) (env : Environment)
    (uuid1 uuid2 : string) (c : AppConfig) :
  uuid1 <> EmptyString ->
  let first := _getMachineId enabled env uuid1 c in
  _getMachineId enabled env uuid2 first.2 = first /\
  (enabled = true -> isEnvProfile env = false ->
   Js.truthyString first.1 = true /\
   (written first.2 <= S (written c))%nat).
Proof.
  intros Hne. cbn zeta. unfold _getMachineId.
  destruct enabled; cbn; [|split; [reflexivity|discriminate]].
  destruct (isEnvProfile env); cbn; [split; [reflexivity|discriminate]|].
  destruct (Js.truthyString (getMachineId c)) eqn:Hid; cbn.
  - rewrite Hid. cbn. split; [reflexivity|]. intros _ _. split; [auto|lia].
  - destruct uuid1 as [|a u]; [congruence|]. cbn.
    split; [reflexivity|]. intros _ _. split; [reflexivity|lia].
Qed.

End MetricsCalls.

(* ===================================================================== *)
(** * More on the ask-states store *)
(* ===================================================================== *)

Section AskStatesMore.

Import AskStates AskStatesAccess.

Context {Content : Type}.
Variable disk : string -> option Content.

(** X19. A construction whose read throws leaves the stored instance in
    place: [getInstance] answers as before, and a construction for the
    path of the stored instance still returns it. *)
Theorem X19_failed_read_keeps_instance (filePath : string) (p : Process Content) :
  instanceFor p filePath = None ->
  disk filePath = None ->
  let r := constructor disk filePath p in
  r.1 = Thrown /\
  getInstance r.2 = getInstance p /\
  (forall other i,
      instanceFor p other = Some i ->
      constructor disk other r.2 = (Returned i, r.2)).
Proof.
  intros Hfor Hdisk. cbn zeta.
  assert (Hrun : constructor disk filePath p =
                 (Thrown, {| heap := (heap p ++ [{| _path := filePath; content := None |}])%list;
                             instance := instance p |})).
  { unfold constructor. rewrite Hfor, Hdisk. reflexivity. }
  rewrite Hrun. cbn.
  split; [reflexivity|]. split; [reflexivity|].
  intros other i Hother. apply constructor_stored.
  apply instanceFor_Some in Hother. destruct Hother as (Hi & o & Ho & Hpath).
  apply instanceFor_Some. cbn. split; [exact Hi|]. exists o. split; [|exact Hpath].
  rewrite lookup_app_l; [exact Ho|]. apply lookup_lt_Some in Ho. exact Ho.
Qed.

(** X20. After [dispose] there is no instance, and a construction, also
    for the path that was stored, reads the file again into a new
    object, which becomes the instance; the objects made before stay as
    they are. *)
Theorem X20_dispose (filePath : string) (p : Process Content) (c : Content) :
  disk filePath = Some c ->
  let r := constructor disk filePath (dispose p) in
  getInstance (dispose p) = None /\
  r.1 = Returned (length (heap p)) /\
  getInstance r.2 = Some (length (heap p)) /\
  heap r.2 !! length (heap p) = Some {| _path := filePath; content := Some c |} /\
  (forall i o, heap p !! i = Some o -> heap r.2 !! i = Some o).
Proof.
  intros Hdisk. cbn zeta. unfold constructor, instanceFor, dispose, getInstance. cbn.
  rewrite Hdisk. cbn. repeat split.
  - apply list_lookup_insert_eq. rewrite length_app. cbn. lia.
  - intros i o Ho. pose proof (lookup_lt_Some _ _ _ Ho) as Hlt.
    rewrite list_lookup_insert_ne by lia.
    rewrite lookup_app_l by exact Hlt. exact Ho.
Qed.

End AskStatesMore.

Section AskStatesSettings.

Import AskStates AskStatesAccess.

Lemma isPrefix_refl (p : list string) : isPrefix p p = true.
Proof.
  induction p as [|x p IH]; cbn; [reflexivity|].
  rewrite bool_decide_eq_true_2 by reflexivity. exact IH.
Qed.

Lemma keyPath_apart (k1 k2 : Key) :
  isPrefix (keyPath k1) (keyPath k2) = true -> k1 = k2.
Proof.
  destruct k1, k2; cbn;
    repeat (case_bool_decide; cbn; try discriminate);
    intros _; congruence.
Qed.

(** X21. No setting gets in the way of another: the key path of a
    setting begins the key path of a setting only when the two are the
    same setting, for the same profile and the same region or
    infrastructure type. *)
Theorem X21_key_paths_apart (k1 k2 : Key) :
  isPrefix (keyPath k1) (keyPath k2) = true <-> k1 = k2.
Proof.
  split; [apply keyPath_apart|]. intros ->. apply isPrefix_refl.
Qed.

Context {Content Value : Type}.
Variable getProperty : list string -> Content -> Value.
Variable setProperty : list string -> Value -> Content -> Content.
Variable disk : string -> option Content.

Lemma loaded_constructor (filePath : string) (p : Process Content) :
  loaded p -> loaded (constructor disk filePath p).2.
Proof.
  intros [Halloc Hread]. split; [apply constructor_allocated; exact Halloc|].
  unfold constructor. destruct (instanceFor p filePath); cbn; [exact Hread|].
  destruct (disk filePath) as [c|]; cbn.
  - intros i o Ho [= <-].
    rewrite list_lookup_insert_eq in Ho by (rewrite length_app; cbn; lia).
    inversion Ho; subst. cbn. eauto.
  - intros i o Ho Hi. specialize (Halloc i Hi).
    rewrite lookup_app_l in Ho by exact Halloc. eapply Hread; eauto.
Qed.

(** X22. With a parent that keeps the laws of a keyed document, a
    setting written through the instance that one construction
    returned is read through the instance that a later construction
    for the same path returns, for it is the same object; the other
    settings read as before, and the object stays the stored
    instance. *)
Theorem X22_setting_round_trip (filePath : string) (p p1 p2 : Process Content)
    (r1 r2 : ref) (k : Key) (v : Value) :
  lawful Content Value getProperty setProperty ->
  loaded p ->
  constructor disk filePath p = (Returned r1, p1) ->
  constructor disk filePath p1 = (Returned r2, p2) ->
  let p3 := set Content Value setProperty (keyPath k) v r1 p2 in
  r2 = r1 /\
  get Content Value getProperty (keyPath k) r2 p3 = Some v /\
  (forall k', k' <> k ->
      get Content Value getProperty (keyPath k') r2 p3
      = get Content Value getProperty (keyPath k') r2 p2) /\
  constructor disk filePath p3 = (Returned r1, p3).
Proof.
  intros [Hsame Hother] Hloaded H1 H2. cbn zeta.
  pose proof (loaded_constructor filePath p Hloaded) as Hl1. rewrite H1 in Hl1. cbn in Hl1.
  assert (Hfor : instanceFor p1 filePath = Some r1).
  { unfold constructor in H1. destruct (instanceFor p filePath) as [i|] eqn:Hfor.
    - inversion H1; subst. exact Hfor.
    - destruct (disk filePath) as [c|]; inversion H1; subst; clear H1.
      apply instanceFor_Some. cbn. split; [reflexivity|].
      exists {| _path := filePath; content := Some c |}. split; [|reflexivity].
      apply list_lookup_insert_eq. rewrite length_app. cbn. lia. }
  rewrite (constructor_stored disk filePath p1 r1 Hfor) in H2.
  inversion H2; subst r2 p2; clear H2.
  apply instanceFor_Some in Hfor. destruct Hfor as (Hi & o & Ho & Hpath).
  destruct Hl1 as [_ Hread]. destruct (Hread r1 o Ho Hi) as [c Hc].
  destruct o as [path content]. cbn in *. subst content path.
  assert (Halter : forall f : AskStates Content -> AskStates Content,
             alter f r1 (heap p1) !! r1
             = Some (f {| _path := filePath; content := Some c |})).
  { intros f. rewrite list_lookup_alter_eq.
    match goal with |- _ <$> ?l = _ => replace l with (heap p1 !! r1) by reflexivity end.
    rewrite Ho. reflexivity. }
  split; [reflexivity|]. split; [|split].
  - unfold get, set. cbn. rewrite Halter. cbn. rewrite Hsame. reflexivity.
  - intros k' Hne. unfold get, set. cbn. rewrite Halter, Ho. cbn.
    rewrite Hother; [reflexivity| |].
    + destruct (isPrefix (keyPath k) (keyPath k')) eqn:Hp; [|reflexivity].
      apply keyPath_apart in Hp. congruence.
    + destruct (isPrefix (keyPath k') (keyPath k)) eqn:Hp; [|reflexivity].
      apply keyPath_apart in Hp. congruence.
  - apply constructor_stored, instanceFor_Some. cbn. split; [exact Hi|].
    eexists. split; [apply Halter|reflexivity].
Qed.

Variable BASE : Content.
Variable superWithContent :
  string -> Content -> (string -> option Content) -> (string -> option Content).


End AskStatesSettings.

(* ===================================================================== *)
(** * The entry script of [ask util] *)
(* ===================================================================== *)

Section UtilEntry.

Import UtilCommand.



End UtilEntry.

(* ===================================================================== *)
(** * More properties on concrete runs *)
(* ===================================================================== *)

Section DialogRuns.

Import Dialog Session Fixture.

Lemma X3_service_error_witness :
  let w := world0 history0 true in
  let r := evaluateUtterance failing "help" w in
  getErrorMessage (body failed) = Some "Skill simulation failed" /\
  utteranceCache (this r.2) = ["open my skill"; "help"] /\
  newSession (this r.2) = true.
Proof.
  split; [reflexivity|].
  destruct (X3_service_error failing "help" (world0 history0 true) started failed
              "Skill simulation failed")
    as (_ & _ & Hcache & Hnew); try reflexivity; [discriminate|].
  split; [exact Hcache|exact Hnew].
Defined.

Lemma X4_captions_in_order_witness :
  Js.truthyString (getErrorMessage (body (finished true))) = false /\
  trace (evaluateUtterance (accepting true) "stop" (world0 history0 false)).2 =
    [StartProgressSpinner "Sending simulation request to Alexa...";
     StartSimulationRequest "stop" false;
     UpdateProgressSpinner "Waiting for the simulation response...";
     GetSimulationResultRequest (Some "sim-1");
     TerminateProgressSpinner;
     MessengerInfo "Session ended";
     MessengerInfo "Alexa > Hi";
     ReplCallback].
Proof.
  split; [reflexivity|].
  etransitivity;
    [apply (X4_captions_in_order (accepting true) "stop" (world0 history0 false)
              started (finished true)); reflexivity
    |reflexivity].
Defined.

Lemma X8_record_unknown_flag_witness :
  Js.split Js.space (Js.trim "replay.json --quit") = ["replay.json"; "--quit"] /\
  files (fs (recordCommand "replay.json --quit" (world0 history0 false)).2) = ∅.
Proof.
  split; [reflexivity|].
  rewrite (X8_record_unknown_flag "replay.json --quit" "replay.json" "--quit"
             (world0 history0 false));
    [reflexivity|reflexivity|reflexivity|reflexivity|discriminate].
Defined.

Lemma X9_record_write_refused_witness :
  "replay.json" ∈ unwritable (fs readOnly) /\
  trace (recordCommand "replay.json" readOnly).2 = [SetupCallback (FsError "replay.json")].
Proof.
  assert (Hin : "replay.json" ∈ unwritable (fs readOnly)).
  { unfold readOnly. cbn. apply elem_of_singleton_2. reflexivity. }
  split; [exact Hin|].
  rewrite (X9_record_write_refused "replay.json" "replay.json" readOnly);
    [reflexivity|reflexivity|left; split; reflexivity|reflexivity|discriminate|exact Hin].
Defined.

End DialogRuns.

Section MetricsRuns.

Import Metrics MetricsSetup Fixture.

Lemma X11_end_result_witness :
  _ended action0 = false /\
  result (end_ (Js.EError EmptyString) 5 action0) = Some MetricActionResult.SUCCESS.
Proof.
  split; [reflexivity|].
  apply (X11_end_result (Js.EError EmptyString) 5 action0); reflexivity.
Defined.

Lemma X14_opt_out_witness :
  isEnvProfile optedOut = false /\
  posts (calls clock0 (failingUntil 0)
           [StartAction "deploy" "command" "id-0"; SendData Js.ENone]
           (newMetricClient clock0 optedOut "https://metrics" "2.0.0" "ask-cli" "id-1"
              0 appConfig0).1) = [].
Proof.
  split; [reflexivity|].
  apply (X14_opt_out clock0 (failingUntil 0) optedOut "https://metrics" "2.0.0" "ask-cli"
           "id-1" 0 appConfig0
           [StartAction "deploy" "command" "id-0"; SendData Js.ENone] Js.ENone);
    [reflexivity|left; reflexivity].
Defined.

Lemma X15_failed_upload_is_resent_witness :
  (sendData clock0 (failingUntil 3) (Js.EError "boom") client0).1
  = Resolved {| success := false |} /\
  Forall (fun a => _ended a = true)
         (actions (data (client (sendData clock0 (failingUntil 3)
                                   (Js.EError "boom") client0).2))).
Proof.
  split; [reflexivity|].
  apply (X15_failed_upload_is_resent clock0 (failingUntil 3) (Js.EError "boom") Js.ENone
           client0).
  reflexivity.
Defined.

Lemma X16_successful_upload_clears_witness :
  (sendData clock0 (failingUntil 2) Js.ENone client0).1 = Resolved {| success := true |} /\
  actions (data (client (sendData clock0 (failingUntil 2) Js.ENone client0).2)) = [].
Proof.
  split; [reflexivity|].
  apply (X16_successful_upload_clears clock0 (failingUntil 2) Js.ENone client0).
  reflexivity.
Defined.

Lemma X17_environment_profile_witness :
  isEnvProfile environmentProfile = true /\
  enabled (client (newMetricClient clock0 environmentProfile "https://metrics" "2.0.0"
                     "ask-cli" "id-1" 0 appConfig0).1) = true.
Proof.
  split; [reflexivity|].
  apply (X17_environment_profile clock0 environmentProfile "https://metrics" "2.0.0"
           "ask-cli" "id-1" 0 appConfig0).
  reflexivity.
Defined.

Lemma X18_machine_id_is_stable_witness :
  "id-1" <> EmptyString /\
  _getMachineId true configured "id-2" (_getMachineId true configured "id-1" appConfig0).2
  = _getMachineId true configured "id-1" appConfig0.
Proof.
  assert (Hne : "id-1" <> EmptyString) by discriminate.
  split; [exact Hne|].
  apply (X18_machine_id_is_stable true configured "id-1" "id-2" appConfig0 Hne).
Defined.

End MetricsRuns.

Section AskStatesRuns.

Import AskStates AskStatesAccess Fixture.

Lemma X19_failed_read_keeps_instance_witness :
  let p := (constructAll diskA ["a"] start).2 in
  diskA "b" = None /\
  getInstance (constructor diskA "b" p).2 = Some 0%nat.
Proof.
  split; [reflexivity|].
  apply (X19_failed_read_keeps_instance diskA "b" (constructAll diskA ["a"] start).2);
    reflexivity.
Defined.

Lemma X20_dispose_witness :
  let p := (constructAll disk0 ["a"] start).2 in
  disk0 "a" = Some tt /\
  (constructor disk0 "a" (dispose p)).1 = Returned 1%nat.
Proof.
  split; [reflexivity|].
  apply (X20_dispose disk0 "a" (constructAll disk0 ["a"] start).2 tt).
  reflexivity.
Defined.

Lemma lawful0 : lawful _ _ getProperty0 setProperty0.
Proof.
  split.
  - intros path [v|] c; unfold getProperty0, setProperty0.
    + apply lookup_insert_eq.
    + apply lookup_delete_eq.
  - intros path path' v c Hp _. unfold getProperty0, setProperty0.
    assert (Hne : path <> path').
    { intros ->. rewrite isPrefix_refl in Hp. discriminate. }
    destruct v; [apply lookup_insert_ne|apply lookup_delete_ne]; exact Hne.
Qed.

Lemma loaded_start {Content : Type} : loaded (@start Content).
Proof. split; intros i; cbn; discriminate. Qed.

Lemma X22_setting_round_trip_witness :
  let p2 := (constructAll disk1 ["a"; "a"] start).2 in
  getSkillId _ _ getProperty0 "default" 0%nat
    (setSkillId _ _ setProperty0 "default" (Some "amzn1.ask.skill.1") 0%nat p2)
  = Some (Some "amzn1.ask.skill.1").
Proof.
  apply (X22_setting_round_trip getProperty0 setProperty0 disk1 "a" start
           (constructAll disk1 ["a"] start).2 (constructAll disk1 ["a"; "a"] start).2
           0%nat 0%nat (SkillId "default") (Some "amzn1.ask.skill.1")
           lawful0 loaded_start eq_refl eq_refl).
Defined.

End AskStatesRuns.
